(** * auto-darkmode: sunrise/sunset based GNOME colour-scheme switch

    A shallow embedding of [auto-darkmode/darkmode-switch.py] and the
    properties its specification states about it.

    Numbers.  The script computes with Python [float]s.  They are read here
    as real numbers ([R] of the Standard Library): [math.sin], [math.cos],
    [math.tan], [math.atan], [math.asin], [math.acos] are the real functions
    of the same name, [math.pi] is [PI], and the arithmetic operators are
    exact.  Rounding, infinities and NaN are outside this reading.  What
    Python raises is kept: a division whose divisor is a variable raises
    [ZeroDivisionError] on zero, [math.asin] and [math.acos] raise
    [ValueError] outside [-1, 1].

    The real reading says which formula the code follows and which branch it
    takes on the values it has computed.  It does not say what the rounded
    operations return at the edge of a range: the remainder [x % 24] of a
    tiny negative [x] is [24.0] in binary64 and below 24 over the reals, the
    tangent of 270 degrees is a large number in binary64 and not defined
    over the reals, and the cosine of 90 degrees is [6.1e-17] in
    binary64 and zero over the reals.  The theorems below are stated so
    that they do not rest on these three.
    The two places of the script where the rounded remainder decides what is
    returned, line 84 and lines 93 to 97, are embedded a second time over
    binary64 numbers (the primitive floats of the kernel), and what they
    return there is computed.

    Effects.  [main] and its helpers read the clock, the time zone, the
    configuration file and the desktop setting, and they print and run
    [gsettings].  They are written in a state-and-exception monad over a
    [World]. *)

From Stdlib Require Import Reals Lra Lia Psatz ZArith Bool List String Ascii.
From Stdlib Require Import Floats.
Import ListNotations.

#[local] Set Warnings "-inexact-float".

Local Open Scope R_scope.

(** ** Python numbers *)

Module Py.

(** Exceptions the script can end with. *)
Inductive exn : Type :=
| ZeroDivisionError
| ValueError
| OverflowError
| ConfigError
| CalledProcessError.

(** [x // y] on floats with a non-zero literal divisor: the floor of the
    quotient, as a float. *)
Definition floordiv (x y : R) : R := IZR (Int_part (x / y)).

(** [x % y] on floats with a non-zero literal divisor: the remainder has
    the sign of the divisor, [x - y * floor (x / y)].  Over the reals it is
    below the divisor; the rounded remainder of binary64, [Py64.mod_] below,
    can be the divisor itself. *)
Definition mod_ (x y : R) : R := x - y * IZR (Int_part (x / y)).

(** [int(x)] on a float truncates toward zero. *)
Definition int (x : R) : Z :=
  if Rle_dec 0 x then Int_part x else (- Int_part (- x))%Z.

(** [math.radians] and [math.degrees]. *)
Definition radians (x : R) : R := x * (PI / 180).
Definition degrees (x : R) : R := x * (180 / PI).

(** [x / y] with a divisor that is not a literal. *)
Definition div (x y : R) : exn + R :=
  if Req_dec_T y 0 then inl ZeroDivisionError else inr (x / y).

(** [math.asin] and [math.acos] with their domain check. *)
Definition math_asin (x : R) : exn + R :=
  if Rlt_dec x (-1) then inl ValueError
  else if Rlt_dec 1 x then inl ValueError
  else inr (asin x).

Definition math_acos (x : R) : exn + R :=
  if Rlt_dec x (-1) then inl ValueError
  else if Rlt_dec 1 x then inl ValueError
  else inr (acos x).

End Py.

(** Sequencing of computations that may raise. *)
Definition bindE {A B : Type} (c : Py.exn + A) (k : A -> Py.exn + B)
  : Py.exn + B :=
  match c with
  | inl e => inl e
  | inr a => k a
  end.

Declare Scope exn_scope.
Delimit Scope exn_scope with exn.
Notation "x <- c ;; k" := (bindE c (fun x => k))
  (at level 61, c at next level, right associativity) : exn_scope.

(** ** Python numbers in binary64

    The same operators on the binary64 numbers Python computes with.
    Addition, subtraction, multiplication, division and the comparisons are
    the kernel's IEEE 754 operations, rounded to nearest, ties to even; a
    decimal literal denotes the nearest binary64 number, as in Python. *)

Module Py64.

(** C's [fmod]: the exact remainder of [x] by [y], with the sign of [x].
    A finite float is [m * 2 ^ e] for integers [m] and [e]; the remainder
    is computed on the integers and is a float again. *)
Definition fmod (x y : float) : float :=
  match Prim2SF x, Prim2SF y with
  | S754_nan, _ | _, S754_nan => nan
  | S754_infinity _, _ => nan
  | _, S754_zero _ => nan
  | S754_zero _, _ => x
  | _, S754_infinity _ => x
  | S754_finite sx mx ex, S754_finite _ my ey =>
      let e := Z.min ex ey in
      let X := (Zpos mx * 2 ^ (ex - e))%Z in
      let Y := (Zpos my * 2 ^ (ey - e))%Z in
      match (X mod Y)%Z with
      | Zpos r => SF2Prim (S754_finite sx r e)
      | _ => SF2Prim (S754_zero sx)
      end
  end.

(** [x % y] on floats with a non-zero divisor, as CPython's [float_rem]
    computes it: [fmod], then the divisor is added when the remainder is
    not zero and its sign is not the divisor's; a zero remainder takes the
    sign of the divisor.  The addition is rounded. *)
Definition mod_ (x y : float) : float :=
  let m := fmod x y in
  if (m =? 0)%float then (if (y <? 0)%float then (-0)%float else 0%float)
  else if Bool.eqb (y <? 0)%float (m <? 0)%float then m
  else (m + y)%float.

(** [int(x)] on a float truncates toward zero; it raises [ValueError] on
    NaN and [OverflowError] on an infinity. *)
Definition int (x : float) : Py.exn + Z :=
  match Prim2SF x with
  | S754_zero _ => inr 0%Z
  | S754_finite s m e =>
      let a := if (0 <=? e)%Z then (Zpos m * 2 ^ e)%Z
               else (Zpos m / 2 ^ (- e))%Z in
      inr (if s then (- a)%Z else a)
  | S754_infinity _ => inl Py.OverflowError
  | S754_nan => inl Py.ValueError
  end.

(** The float of an [int] operand of a float operation; exact below
    [2 ^ 53], which covers the hours of a day. *)
Definition of_int (z : Z) : float :=
  match z with
  | Z0 => 0%float
  | Zpos p => SF2Prim (S754_finite false p 0)
  | Zneg p => SF2Prim (S754_finite true p 0)
  end.

(** The real number a finite float stands for. *)
Definition to_R (x : float) : R :=
  match Prim2SF x with
  | S754_finite s m e => IZR (if s then Zneg m else Zpos m) * powerRZ 2 e
  | _ => 0
  end.

End Py64.

(** ** Calendar dates

    [datetime.date] holds a year, a month and a day; [timetuple().tm_yday]
    is the 1-based ordinal of the day within its year, computed as the
    [datetime] module does: the days before the month, one more after
    February of a leap year, plus the day. *)

Record date : Type := mkDate { year : Z; month : Z; day : Z }.

Definition is_leap (y : Z) : bool :=
  ((y mod 4 =? 0) && (negb (y mod 100 =? 0) || (y mod 400 =? 0)))%Z.

Definition days_before_month (y m : Z) : Z :=
  (nth (Z.to_nat m)
       [-1; 0; 31; 59; 90; 120; 151; 181; 212; 243; 273; 304; 334] 0
   + (if (2 <? m) && is_leap y then 1 else 0))%Z.

Definition days_in_month (y m : Z) : Z :=
  (if (m =? 2) && is_leap y then 29
   else nth (Z.to_nat m)
            [-1; 31; 28; 31; 30; 31; 30; 31; 31; 30; 31; 30; 31] 0)%Z.

Definition tm_yday (d : date) : Z :=
  (days_before_month (year d) (month d) + day d)%Z.

(** The dates a [datetime.date] object can hold. *)
Definition valid_date (d : date) : Prop :=
  (1 <= year d <= 9999 /\ 1 <= month d <= 12
   /\ 1 <= day d <= days_in_month (year d) (month d))%Z.

(** ** The solar calculator: [calc_sunrise_sunset]

    The nested function [sun_time] is followed line by line; each local
    variable of the source is a definition of the same name. *)

Section SunTime.

(** What [sun_time] closes over. *)
Variable lat : R.
Variable day_of_year : Z.
Variable lng_hour : R.

Definition sun_t (is_rise : bool) : R :=
  if is_rise then IZR day_of_year + ((6 - lng_hour) / 24)
  else IZR day_of_year + ((18 - lng_hour) / 24).

Definition sun_M (t : R) : R := (0.9856 * t) - 3.289.

Definition sun_L (M : R) : R :=
  Py.mod_
    (M + (1.916 * sin (Py.radians M))
       + (0.020 * sin (Py.radians (2 * M))) + 282.634)
    360.

(** Lines 55 to 59.  At [L = 90] and [L = 270] the tangent is not defined
    over the reals and is a large number in binary64; no statement below
    depends on the value of the right ascension at these two longitudes. *)
Definition sun_RA (L : R) : R :=
  let RA := Py.degrees (atan (0.91764 * tan (Py.radians L))) in
  let RA := Py.mod_ RA 360 in
  let L_quad := Py.floordiv L 90 * 90 in
  let RA_quad := Py.floordiv RA 90 * 90 in
  (RA + (L_quad - RA_quad)) / 15.

Definition sun_sin_dec (L : R) : R := 0.39782 * sin (Py.radians L).

Definition sun_cos_dec (sin_dec : R) : Py.exn + R :=
  (a <- Py.math_asin sin_dec ;; inr (cos a))%exn.

Definition zenith : R := 90.833.

(** Lines 67 to 69.  The divisor is zero over the reals exactly when the
    cosine of the latitude is, at the poles; in binary64 the cosine of 90
    degrees is [6.1e-17] and the division is carried out.  The statements
    below are about latitudes whose cosine is not zero. *)
Definition sun_cos_H (sin_dec cos_dec : R) : Py.exn + R :=
  Py.div
    (cos (Py.radians zenith) - (sin_dec * sin (Py.radians lat)))
    (cos_dec * cos (Py.radians lat)).

Definition sun_H (is_rise : bool) (cos_H : R) : Py.exn + R :=
  (a <- Py.math_acos cos_H ;;
   inr (if is_rise then (360 - Py.degrees a) / 15
        else Py.degrees a / 15))%exn.

Definition sun_T (H RA t : R) : R := H + RA - (0.06571 * t) - 6.622.

Definition sun_UT (T : R) : R := Py.mod_ (T - lng_hour) 24.

(** [sun_time(is_rise)]: [None] in the polar cases, the UTC hour of the
    event otherwise. *)
Definition sun_time (is_rise : bool) : Py.exn + option R :=
  (let t := sun_t is_rise in
   let M := sun_M t in
   let L := sun_L M in
   let RA := sun_RA L in
   let sin_dec := sun_sin_dec L in
   cos_dec <- sun_cos_dec sin_dec ;;
   cos_H <- sun_cos_H sin_dec cos_dec ;;
   if Rgt_dec cos_H 1 then inr None
   else if Rlt_dec cos_H (-1) then inr None
   else
     H <- sun_H is_rise cos_H ;;
     let T := sun_T H RA t in
     inr (Some (sun_UT T)))%exn.

End SunTime.

Definition calc_sunrise_sunset (lat lon : R) (d : date)
  : Py.exn + (option R * option R) :=
  (let day_of_year := tm_yday d in
   let lng_hour := lon / 15.0 in
   rise <- sun_time lat day_of_year lng_hour true ;;
   set <- sun_time lat day_of_year lng_hour false ;;
   inr (rise, set))%exn.

(** ** The world the script runs in *)

(** What the script prints and the one command it runs that changes
    anything.  The two clock times of a message stand for its ["HH:MM"]
    fields. *)
Inductive event : Type :=
| PrintConfigMissing
| PrintPolarWarning
| PrintSkip (dark : bool) (sunrise sunset now : Z * Z)
| PrintOk (dark : bool) (sunrise sunset now : Z * Z)
| GsettingsSet (scheme : string).

(** One run reads the clock and the time zone several times; the world
    holds them fixed for the run.  [config_file] is [None] when
    [location.conf] does not exist, [Some None] when [configparser] fails on
    it, and holds latitude and longitude otherwise.  [gsettings_stdout] is
    the text [result.stdout] holds after [gsettings get ... color-scheme],
    as a string of ASCII characters: with [text=True] the output is decoded
    and a carriage return in it becomes a newline, so an output with
    carriage returns or with characters outside ASCII is outside this
    reading; [gsettings_set_ok] tells whether [gsettings set] exits with
    status 0.  The [gsettings] program itself is taken to be installed, so
    that [subprocess.run] starts it. *)
Record World : Type := mkWorld {
  config_file : option (option (R * R));
  today : date;
  now_hour : Z;
  now_minute : Z;
  utcoffset_total_seconds : R;
  gsettings_stdout : string;
  gsettings_set_ok : bool;
  trace : list event
}.

(** How a call ends: with a value, with an exception or with [sys.exit]. *)
Inductive result (A : Type) : Type :=
| Return (a : A)
| Raise (e : Py.exn)
| SysExit (code : Z).
Arguments Return {A} a.
Arguments Raise {A} e.
Arguments SysExit {A} code.

Definition Run (A : Type) : Type := World -> result A * World.

Definition bind {A B : Type} (c : Run A) (k : A -> Run B) : Run B :=
  fun w =>
    match c w with
    | (Return a, w') => k a w'
    | (Raise e, w') => (Raise e, w')
    | (SysExit n, w') => (SysExit n, w')
    end.

Definition lift {A : Type} (c : Py.exn + A) : Run A :=
  fun w => match c with inl e => (Raise e, w) | inr a => (Return a, w) end.

(** The world after one more event. *)
Definition log (e : event) (w : World) : World :=
  mkWorld (config_file w) (today w) (now_hour w) (now_minute w)
          (utcoffset_total_seconds w) (gsettings_stdout w)
          (gsettings_set_ok w) (trace w ++ [e]).

Definition emit (e : event) : Run unit := fun w => (Return tt, log e w).

(** [datetime.date.today()] and the hour and minute of
    [datetime.datetime.now()]. *)
Definition date_today : Run date := fun w => (Return (today w), w).

Definition datetime_now : Run (Z * Z) :=
  fun w => (Return (now_hour w, now_minute w), w).

Definition sys_exit {A : Type} (code : Z) : Run A := fun w => (SysExit code, w).

Declare Scope world_scope.
Delimit Scope world_scope with world.
Notation "x <- c ;; k" := (bind c (fun x => k))
  (at level 61, c at next level, right associativity) : world_scope.
Notation "' p <- c ;; k" := (bind c (fun x => let p := x in k))
  (at level 61, p pattern, c at next level, right associativity) : world_scope.
Notation "c ;; k" := (bind c (fun _ => k))
  (at level 61, right associativity) : world_scope.

(** ** Strings: [str.strip] *)

(** The ASCII characters [str.strip()] removes. *)
Definition is_space (c : ascii) : bool :=
  let n := nat_of_ascii c in
  ((9 <=? n) && (n <=? 13) || (28 <=? n) && (n <=? 32))%nat.

Definition is_quote (c : ascii) : bool := Ascii.eqb c "'"%char.

Fixpoint lstrip (p : ascii -> bool) (s : string) : string :=
  match s with
  | EmptyString => EmptyString
  | String c s' => if p c then lstrip p s' else s
  end.

Fixpoint rstrip (p : ascii -> bool) (s : string) : string :=
  match s with
  | EmptyString => EmptyString
  | String c s' =>
      match rstrip p s' with
      | EmptyString => if p c then EmptyString else String c EmptyString
      | r => String c r
      end
  end.

Definition strip (p : ascii -> bool) (s : string) : string :=
  rstrip p (lstrip p s).

(** ** The helpers of [main] *)

Definition load_config : Run (R * R) :=
  fun w =>
    match config_file w with
    | None => (emit PrintConfigMissing ;; sys_exit 1)%world w
    | Some None => (Raise Py.ConfigError, w)
    | Some (Some (lat, lon)) => (Return (lat, lon), w)
    end.

(** Lines 90 to 97 over the reals; [utc_hours_to_local_time_binary64] below
    has the same steps with the rounding of each operation. *)
Definition utc_hours_to_local_time (utc_hours : R) : Run (Z * Z) :=
  fun w =>
    let local_offset_hours := utcoffset_total_seconds w / 3600 in
    let local_hours := Py.mod_ (utc_hours + local_offset_hours) 24 in
    let h := Py.int local_hours in
    let m := Py.int ((local_hours - IZR h) * 60) in
    (Return (h, m), w).

Definition get_current_scheme : Run string :=
  fun w => (Return (strip is_quote (strip is_space (gsettings_stdout w))), w).

Definition nl : string := String (ascii_of_nat 10) EmptyString.

(** The world after [gsettings set ... color-scheme scheme] has run: the
    command is in the trace, and when it succeeded reading the key back
    prints the quoted value and a newline. *)
Definition gsettings_set (scheme : string) (w : World) : World :=
  mkWorld (config_file w) (today w) (now_hour w) (now_minute w)
          (utcoffset_total_seconds w)
          (if gsettings_set_ok w then ("'" ++ scheme ++ "'" ++ nl)%string
           else gsettings_stdout w)
          (gsettings_set_ok w) (trace w ++ [GsettingsSet scheme]).

(** [check=True] turns a failed command into [CalledProcessError]. *)
Definition set_scheme (dark : bool) : Run string :=
  fun w =>
    let scheme := if dark then "prefer-dark"%string else "default"%string in
    if gsettings_set_ok w then (Return scheme, gsettings_set scheme w)
    else (Raise Py.CalledProcessError, gsettings_set scheme w).

(** ** The daylight decision of [main] *)

Definition is_daytime (sunrise_minutes now_minutes sunset_minutes : Z) : bool :=
  ((sunrise_minutes <=? now_minutes) && (now_minutes <=? sunset_minutes))%Z.

Definition should_be_dark (sunrise_minutes now_minutes sunset_minutes : Z)
  : bool :=
  negb (is_daytime sunrise_minutes now_minutes sunset_minutes).

Definition current_is_dark (current : string) : bool :=
  String.eqb current "prefer-dark".

(** The part of [main] after the polar check (source lines 126 to 149). *)
Definition switch (sunrise_utc sunset_utc : R) : Run unit :=
  ('(sr_h, sr_m) <- utc_hours_to_local_time sunrise_utc ;;
   '(ss_h, ss_m) <- utc_hours_to_local_time sunset_utc ;;
   '(now_h, now_m) <- datetime_now ;;
   let now_minutes := (now_h * 60 + now_m)%Z in
   let sunrise_minutes := (sr_h * 60 + sr_m)%Z in
   let sunset_minutes := (ss_h * 60 + ss_m)%Z in
   let dark := should_be_dark sunrise_minutes now_minutes sunset_minutes in
   current <- get_current_scheme ;;
   let cur := current_is_dark current in
   if Bool.eqb dark cur then
     emit (PrintSkip cur (sr_h, sr_m) (ss_h, ss_m) (now_h, now_m))
   else
     (_ <- set_scheme dark ;;
      emit (PrintOk dark (sr_h, sr_m) (ss_h, ss_m) (now_h, now_m))))%world.

Definition main : Run unit :=
  ('(lat, lon) <- load_config ;;
   today <- date_today ;;
   r <- lift (calc_sunrise_sunset lat lon today) ;;
   match r with
   | (Some sunrise_utc, Some sunset_utc) => switch sunrise_utc sunset_utc
   | _ => emit PrintPolarWarning
   end)%world.

(** ** Lines 84 and 93 to 97 in binary64

    The last step of [sun_time] and the body of [utc_hours_to_local_time]
    use only arithmetic, the remainder and [int]; here they are operation
    by operation on binary64 numbers.  The UTC offset of the host is the
    float [total_seconds()] returns. *)

Definition sun_UT_binary64 (lng_hour T : float) : float :=
  Py64.mod_ (T - lng_hour) 24.

Definition utc_hours_to_local_time_binary64 (total_seconds utc_hours : float)
  : Py.exn + (Z * Z) :=
  (let local_offset_hours := (total_seconds / 3600)%float in
   let local_hours := Py64.mod_ (utc_hours + local_offset_hours) 24 in
   h <- Py64.int local_hours ;;
   m <- Py64.int ((local_hours - Py64.of_int h) * 60) ;;
   inr (h, m))%exn.

(** ** The formulas of the specification (sections 4.1 and 4.2)

    Written from the specification's steps 1 to 11, with the degree-based
    trigonometric helpers its design notes ask for, and from its conversion
    to local clock time.  They are compared with [calc_sunrise_sunset] and
    with [utc_hours_to_local_time] below. *)

Module Spec.

Inductive SolarEvent : Type :=
| UtcOfDay (hours : R)
| SunNeverRises
| SunNeverSets.

Inductive Mode : Type := Rise | Set_.

Definition floor (x : R) : R := IZR (Int_part x).
Definition modulo (x m : R) : R := x - m * floor (x / m).

Definition sind (x : R) : R := sin (x * (PI / 180)).
Definition cosd (x : R) : R := cos (x * (PI / 180)).
Definition tand (x : R) : R := tan (x * (PI / 180)).
Definition atand (x : R) : R := atan x * (180 / PI).
Definition acosd (x : R) : R := acos x * (180 / PI).

Definition assumedLocalHour (mode : Mode) : R :=
  match mode with Rise => 6 | Set_ => 18 end.

Section Event.

Variables (latitude longitude : R) (d : date) (mode : Mode).

(** Step 1. *)
Definition dayOfYear : R := IZR (tm_yday d).

(** Step 2. *)
Definition lngHour : R := longitude / 15.

(** Step 3. *)
Definition t : R := dayOfYear + ((assumedLocalHour mode - lngHour) / 24).

(** Step 4. *)
Definition M : R := 0.9856 * t - 3.289.

(** Step 5. *)
Definition L : R :=
  modulo (M + 1.916 * sind M + 0.020 * sind (2 * M) + 282.634) 360.

(** Step 6. *)
Definition RA : R :=
  let ra := modulo (atand (0.91764 * tand L)) 360 in
  (ra + (floor (L / 90) * 90 - floor (ra / 90) * 90)) / 15.

(** Step 7. *)
Definition sinDec : R := 0.39782 * sind L.
Definition cosDec : R := cos (asin sinDec).

(** Step 8. *)
Definition cosH : R :=
  (cosd 90.833 - sinDec * sind latitude) / (cosDec * cosd latitude).

(** Step 9. *)
Definition H : R :=
  match mode with
  | Rise => (360 - acosd cosH) / 15
  | Set_ => acosd cosH / 15
  end.

(** Step 10. *)
Definition T : R := H + RA - 0.06571 * t - 6.622.

(** Step 11. *)
Definition UT : R := modulo (T - lngHour) 24.

Definition solarEvent : SolarEvent :=
  if Rgt_dec cosH 1 then SunNeverRises
  else if Rlt_dec cosH (-1) then SunNeverSets
  else UtcOfDay UT.

End Event.


(** Section 4.2: a UTC-of-day value as local clock time, the whole hour and
    the minute. *)
Definition localHours (utcHours utcOffset : R) : R :=
  modulo (utcHours + utcOffset) 24.

Definition localClock (utcHours utcOffset : R) : Z * Z :=
  let h := Int_part (localHours utcHours utcOffset) in
  let m := Int_part ((localHours utcHours utcOffset - IZR h) * 60) in
  (h, m).

End Spec.

(** ** Observations used in the statements *)

(** The mode of the specification for the flag of [sun_time]. *)
Definition mode_of (is_rise : bool) : Spec.Mode :=
  if is_rise then Spec.Rise else Spec.Set_.

(** What is left of a tagged event when both polar markers become [None],
    as in the source. *)
Definition untag (e : Spec.SolarEvent) : option R :=
  match e with
  | Spec.UtcOfDay hours => Some hours
  | Spec.SunNeverRises | Spec.SunNeverSets => None
  end.

(** The value [sun_time] returns when nothing raises and no polar test
    fires: the source's last four lines. *)
Definition sun_time_value (day_of_year : Z) (lng_hour : R)
  (is_rise : bool) (cos_H : R) : R :=
  let t := sun_t day_of_year lng_hour is_rise in
  let L := sun_L (sun_M t) in
  let H := if is_rise then (360 - Py.degrees (acos cos_H)) / 15
           else Py.degrees (acos cos_H) / 15 in
  sun_UT lng_hour (sun_T H (sun_RA L) t).

(** The quotient [cos_H] of the source as a real number. *)
Definition cos_H_value (lat : R) (day_of_year : Z) (lng_hour : R)
  (is_rise : bool) : R :=
  let L := sun_L (sun_M (sun_t day_of_year lng_hour is_rise)) in
  let sin_dec := sun_sin_dec L in
  (cos (Py.radians zenith) - sin_dec * sin (Py.radians lat))
  / (cos (asin sin_dec) * cos (Py.radians lat)).

(** The UTC hour [calc_sunrise_sunset] returns for an event that occurs. *)
Definition event_value (lat lon : R) (d : date) (is_rise : bool) : R :=
  sun_time_value (tm_yday d) (lon / 15.0) is_rise
    (cos_H_value lat (tm_yday d) (lon / 15.0) is_rise).

(** Local hour and minute of a UTC hour, and its minutes since local
    midnight, as [main] computes them. *)
Definition local_time (utc_hours : R) (w : World) : Z * Z :=
  match fst (utc_hours_to_local_time utc_hours w) with
  | Return hm => hm
  | _ => (0, 0)%Z
  end.

Definition local_minutes (utc_hours : R) (w : World) : Z :=
  (fst (local_time utc_hours w) * 60 + snd (local_time utc_hours w))%Z.

Definition now_minutes (w : World) : Z := (now_hour w * 60 + now_minute w)%Z.

(** The target mode and the current mode [main] compares. *)
Definition target_dark (sunrise_utc sunset_utc : R) (w : World) : bool :=
  should_be_dark (local_minutes sunrise_utc w) (now_minutes w)
                 (local_minutes sunset_utc w).

Definition current_scheme (w : World) : string :=
  strip is_quote (strip is_space (gsettings_stdout w)).

Definition scheme_of (dark : bool) : string :=
  if dark then "prefer-dark"%string else "default"%string.

(** The [gsettings set] commands of a trace. *)
Definition sets_of (tr : list event) : list string :=
  flat_map (fun e => match e with GsettingsSet s => [s] | _ => [] end) tr.

(** ** Concrete inputs for the examples *)

Definition midsummer : date := mkDate 2024 6 21.
Definition midsummer_eve : date := mkDate 2024 6 20.
Definition midwinter : date := mkDate 2024 12 21.

(** Latitude 35, longitude 139 on 21 June at 23:00, clock on UTC, light
    scheme set. *)
Definition evening_world : World :=
  mkWorld (Some (Some (35, 139))) midsummer 23 0 0
          ("'default'" ++ nl)%string true [].

(** Latitude 66 on 21 June. *)
Definition arctic_world : World :=
  mkWorld (Some (Some (66, 0))) midsummer 12 0 0
          ("'default'" ++ nl)%string true [].

(** Whether a string begins, or ends, with a character of a class. *)
Definition starts_with (p : ascii -> bool) (s : string) : bool :=
  match s with
  | EmptyString => false
  | String c _ => p c
  end.

Fixpoint ends_with (p : ascii -> bool) (s : string) : bool :=
  match s with
  | EmptyString => false
  | String c EmptyString => p c
  | String _ s' => ends_with p s'
  end.

(** The characters that text mode leaves as they are and that [str.strip]
    counts as white space only when they are the space: printable ASCII. *)
Definition is_printable (c : ascii) : bool :=
  let n := nat_of_ascii c in ((32 <=? n) && (n <=? 126))%nat.

Fixpoint printable (s : string) : bool :=
  match s with
  | EmptyString => true
  | String c s' => is_printable c && printable s'
  end.

(** The output of [gsettings get] for a string value. *)
Definition gsettings_line (value : string) : string :=
  ("'" ++ value ++ "'" ++ nl)%string.

(** [evening_world] with a [gsettings set] that fails. *)
Definition broken_world : World :=
  mkWorld (Some (Some (35, 139))) midsummer 23 0 0
          ("'default'" ++ nl)%string false [].

(** A host without [location.conf]. *)
Definition unconfigured_world : World :=
  mkWorld None midsummer 23 0 0 ("'default'" ++ nl)%string true [].

(** ** Floors, remainders and truncation *)

Lemma floor_bounds (x : R) : IZR (Int_part x) <= x < IZR (Int_part x) + 1.
Proof. destruct (base_Int_part x) as [H1 H2]. lra. Qed.

Lemma floor_unique (x : R) (z : Z) : IZR z <= x < IZR z + 1 -> Int_part x = z.
Proof. intros H. symmetry. apply Int_part_spec. lra. Qed.

Lemma mod_range (x m : R) : 0 < m -> 0 <= Py.mod_ x m < m.
Proof.
  intros Hm. unfold Py.mod_.
  destruct (floor_bounds (x / m)) as [H1 H2].
  assert (Hx : x = m * (x / m)) by (field; lra).
  split.
  - apply Rmult_le_compat_l with (r := m) in H1; lra.
  - apply Rmult_lt_compat_l with (r := m) in H2; lra.
Qed.

Lemma mod_small (x m : R) : 0 <= x < m -> Py.mod_ x m = x.
Proof.
  intros [H0 Hm]. unfold Py.mod_.
  assert (E : Int_part (x / m) = 0%Z).
  { apply floor_unique. simpl. split.
    - apply Rmult_le_pos; [lra|]. apply Rlt_le, Rinv_0_lt_compat. lra.
    - apply Rmult_lt_reg_r with m; [lra|].
      replace (x / m * m) with x by (field; lra). lra. }
  rewrite E. simpl. ring.
Qed.

Lemma int_nonneg (x : R) : 0 <= x -> Py.int x = Int_part x.
Proof. intros H. unfold Py.int. destruct (Rle_dec 0 x); [reflexivity|lra]. Qed.

(** Over the reals the remainder of a negative number above [- m] is the
    number plus [m], below [m]. *)
Lemma mod_tiny_negative (x m : R) :
  0 < m -> - m <= x < 0 -> Py.mod_ x m = x + m.
Proof.
  intros Hm Hx. unfold Py.mod_.
  assert (E : Int_part (x / m) = (-1)%Z).
  { apply floor_unique. simpl. split.
    - apply Rmult_le_reg_r with m; [lra|].
      replace (x / m * m) with x by (field; lra). lra.
    - apply Rmult_lt_reg_r with m; [lra|].
      replace (x / m * m) with x by (field; lra). lra. }
  rewrite E. simpl. ring.
Qed.

(** The real number of a float whose sign, mantissa and exponent are
    known. *)
Lemma to_R_finite (x : float) (s : bool) (m : positive) (e : Z) :
  Prim2SF x = S754_finite s m e ->
  Py64.to_R x = IZR (if s then Zneg m else Zpos m) * powerRZ 2 e.
Proof. intros E. unfold Py64.to_R. rewrite E. reflexivity. Qed.

(** The binary64 operators at work: remainders of either sign, and the
    truncation. *)
Example mod_binary64_positive : Py64.mod_ 55.25 24 = 7.25%float.
Proof. reflexivity. Qed.

Example mod_binary64_negative : Py64.mod_ (-7.5) 24 = 16.5%float.
Proof. reflexivity. Qed.

Example mod_binary64_rounds_up : Py64.mod_ (-0x1p-50) 24 = 24%float.
Proof. reflexivity. Qed.

Example int_binary64_truncates :
  Py64.int 23.99 = inr 23%Z /\ Py64.int (-3.7) = inr (-3)%Z
  /\ Py64.int infinity = inl Py.OverflowError
  /\ Py64.int nan = inl Py.ValueError.
Proof. repeat split; reflexivity. Qed.

Example local_time_binary64_tokyo :
  utc_hours_to_local_time_binary64 32400 19.5 = inr (4, 30)%Z.
Proof. reflexivity. Qed.


(** ** Dates and strings at work *)

Example tm_yday_midsummer : tm_yday midsummer = 173%Z.
Proof. reflexivity. Qed.

Example tm_yday_midwinter : tm_yday midwinter = 356%Z.
Proof. reflexivity. Qed.

Example tm_yday_last_day : tm_yday (mkDate 2023 12 31) = 365%Z.
Proof. reflexivity. Qed.

(** The days before a month and the days in it stay within the year. *)
Lemma month_span (y m : Z) :
  (1 <= m <= 12)%Z ->
  (0 <= days_before_month y m
   /\ days_before_month y m + days_in_month y m <= 366)%Z.
Proof.
  intros Hm.
  assert (Hcases : (m = 1 \/ m = 2 \/ m = 3 \/ m = 4 \/ m = 5 \/ m = 6
                    \/ m = 7 \/ m = 8 \/ m = 9 \/ m = 10 \/ m = 11
                    \/ m = 12)%Z) by lia.
  unfold days_before_month, days_in_month.
  destruct (is_leap y);
    repeat (destruct Hcases as [Hcases | Hcases]);
    subst m; simpl; lia.
Qed.

(** The day of the year of a date is between 1 and 366. *)
Lemma tm_yday_range (d : date) : valid_date d -> (1 <= tm_yday d <= 366)%Z.
Proof.
  unfold valid_date, tm_yday. intros (_ & Hm & Hd).
  pose proof (month_span (year d) (month d) Hm). lia.
Qed.

Example strip_dark_line :
  strip is_quote (strip is_space ("'prefer-dark'" ++ nl)) = "prefer-dark"%string.
Proof. reflexivity. Qed.

Example strip_light_line :
  strip is_quote (strip is_space ("'prefer-light'" ++ nl))
  = "prefer-light"%string.
Proof. reflexivity. Qed.

Example strip_empty : strip is_quote (strip is_space "") = ""%string.
Proof. reflexivity. Qed.

(** ** Local clock time: [utc_hours_to_local_time] *)

(** Over the reals the steps of lines 93 to 97 are those of section 4.2:
    [int] is the floor on the two values it is applied to, which are not
    negative. *)
Lemma utc_hours_to_local_time_exact (utc_hours : R) (w : World) :
  utc_hours_to_local_time utc_hours w
  = (Return (Spec.localClock utc_hours (utcoffset_total_seconds w / 3600)), w).
Proof.
  unfold utc_hours_to_local_time, Spec.localClock, Spec.localHours.
  change (Spec.modulo (utc_hours + utcoffset_total_seconds w / 3600) 24)
    with (Py.mod_ (utc_hours + utcoffset_total_seconds w / 3600) 24).
  set (local_hours := Py.mod_ (utc_hours + utcoffset_total_seconds w / 3600) 24).
  assert (Hl : 0 <= local_hours < 24) by (apply mod_range; lra).
  destruct (floor_bounds local_hours) as [Hh1 Hh2].
  rewrite (int_nonneg local_hours) by lra.
  rewrite (int_nonneg ((local_hours - IZR (Int_part local_hours)) * 60)) by lra.
  reflexivity.
Qed.

(** C7.  In binary64 the conversion leaves the formula of section 4.2.  For
    the UTC hour 4.999999999999999, which is [5 - 2 ^ -50], on a host five
    hours behind UTC, the sum of line 94 is [- 2 ^ -50]; its remainder
    modulo 24 is rounded to 24.0, and lines 95 to 97 return hour 24 and
    minute 0.  The formula, on the same two numbers, gives
    [localHours = 24 - 2 ^ -50], the whole hour 23 and the minute 59. *)
Theorem utc_hours_to_local_time_hour_24 :
  let utc_hours := 4.999999999999999%float in
  let total_seconds := (-18000)%float in
  utc_hours_to_local_time_binary64 total_seconds utc_hours = inr (24, 0)%Z
  /\ Spec.localClock (Py64.to_R utc_hours) (Py64.to_R total_seconds / 3600)
     = (23, 59)%Z.
Proof.
  intros utc_hours total_seconds.
  split; [vm_compute; reflexivity|].
  rewrite (to_R_finite utc_hours false 5629499534213119 (-50))
    by (vm_compute; reflexivity).
  rewrite (to_R_finite total_seconds true 4947802324992000 (-38))
    by (vm_compute; reflexivity).
  unfold Spec.localClock, Spec.localHours, Spec.modulo, Spec.floor, powerRZ.
  change (Pos.to_nat 50) with 50%nat. change (Pos.to_nat 38) with 38%nat.
  fold (Py.mod_ (5629499534213119 * / 2 ^ 50
                 + -4947802324992000 * / 2 ^ 38 / 3600) 24).
  rewrite mod_tiny_negative by lra.
  set (lh := 5629499534213119 * / 2 ^ 50
             + -4947802324992000 * / 2 ^ 38 / 3600 + 24).
  assert (Hlh : lh = 24 - / 2 ^ 50) by (unfold lh; lra).
  assert (Eh : Int_part lh = 23%Z) by (apply floor_unique; simpl; lra).
  rewrite Eh.
  assert (Em : Int_part ((lh - 23) * 60) = 59%Z)
    by (apply floor_unique; simpl; lra).
  rewrite Em. reflexivity.
Qed.

(** ** The daylight decision *)

(** C3.  With sunrise, sunset and now in minutes since local midnight, the
    decision is dark exactly when [sunrise <= now <= sunset] fails, both ends
    included: before sunrise and after sunset it is dark, inside the interval
    it is light, and at either end of the interval [sunrise <= sunset] it is
    light. *)
Theorem should_be_dark_iff (sunrise now sunset : Z) :
  (should_be_dark sunrise now sunset = true
   <-> ~ (sunrise <= now <= sunset)%Z)
  /\ ((now < sunrise)%Z -> should_be_dark sunrise now sunset = true)
  /\ ((sunset < now)%Z -> should_be_dark sunrise now sunset = true)
  /\ ((sunrise <= now <= sunset)%Z ->
      should_be_dark sunrise now sunset = false)
  /\ ((sunrise <= sunset)%Z ->
      should_be_dark sunrise sunrise sunset = false
      /\ should_be_dark sunrise sunset sunset = false).
Proof.
  unfold should_be_dark, is_daytime.
  repeat split; intros;
    repeat match goal with
    | |- context [(?a <=? ?b)%Z] => destruct (Z.leb_spec a b)
    end; simpl in *; try reflexivity; try discriminate; try lia.
Qed.

Lemma should_be_dark_iff_witness :
  (6 * 60 <= 19 * 60)%Z
  /\ should_be_dark (6 * 60) (6 * 60) (19 * 60) = false
  /\ should_be_dark (6 * 60) (19 * 60) (19 * 60) = false
  /\ should_be_dark (6 * 60) (5 * 60 + 59) (19 * 60) = true.
Proof.
  destruct (should_be_dark_iff (6 * 60) (5 * 60 + 59) (19 * 60))
    as (_ & Hbefore & _).
  destruct (should_be_dark_iff (6 * 60) (6 * 60) (19 * 60))
    as (_ & _ & _ & _ & Hends).
  assert (Hle : (6 * 60 <= 19 * 60)%Z) by lia.
  destruct (Hends Hle) as [Hrise Hset].
  assert (Hlt : (5 * 60 + 59 < 6 * 60)%Z) by lia.
  exact (conj Hle (conj Hrise (conj Hset (Hbefore Hlt)))).
Defined.

(** ** Runs of [main] *)

Lemma sets_of_app (l1 l2 : list event) :
  sets_of (l1 ++ l2) = (sets_of l1 ++ sets_of l2)%list.
Proof. unfold sets_of. apply flat_map_app. Qed.

(** What [switch] does, case by case. *)
Lemma switch_run (sunrise_utc sunset_utc : R) (w : World) :
  let dark := target_dark sunrise_utc sunset_utc w in
  let cur := current_is_dark (current_scheme w) in
  let now := (now_hour w, now_minute w) in
  let sr := local_time sunrise_utc w in
  let ss := local_time sunset_utc w in
  switch sunrise_utc sunset_utc w =
  if Bool.eqb dark cur then (Return tt, log (PrintSkip cur sr ss now) w)
  else if gsettings_set_ok w then
    (Return tt, log (PrintOk dark sr ss now) (gsettings_set (scheme_of dark) w))
  else (Raise Py.CalledProcessError, gsettings_set (scheme_of dark) w).
Proof.
  intros dark cur now sr ss.
  unfold switch, bind, utc_hours_to_local_time, datetime_now,
    get_current_scheme.
  cbv beta iota zeta.
  change (should_be_dark _ _ _) with dark.
  fold (current_scheme w). fold cur.
  destruct (Bool.eqb dark cur); [reflexivity|].
  unfold set_scheme. fold (scheme_of dark).
  destruct (gsettings_set_ok w); reflexivity.
Qed.

(** A run of [main] that gets past the polar check is a run of [switch]. *)
Lemma main_run_switch (w : World) (lat lon sunrise_utc sunset_utc : R) :
  config_file w = Some (Some (lat, lon)) ->
  calc_sunrise_sunset lat lon (today w)
  = inr (Some sunrise_utc, Some sunset_utc) ->
  main w = switch sunrise_utc sunset_utc w.
Proof.
  intros Hc Hs. unfold main, bind, load_config, date_today, lift.
  rewrite Hc, Hs. reflexivity.
Qed.

Lemma main_run_polar (w : World) (lat lon : R) (r : option R * option R) :
  config_file w = Some (Some (lat, lon)) ->
  calc_sunrise_sunset lat lon (today w) = inr r ->
  fst r = None \/ snd r = None ->
  main w = (Return tt, log PrintPolarWarning w).
Proof.
  intros Hc Hs Hp. unfold main, bind, load_config, date_today, lift.
  rewrite Hc, Hs.
  destruct r as [[u|] [v|]]; simpl in Hp; try reflexivity;
    destruct Hp; discriminate.
Qed.

Lemma eqb_false_neq (a b : bool) : Bool.eqb a b = false <-> a <> b.
Proof. destruct a, b; simpl; split; intros; congruence. Qed.

Lemma switch_sets (sunrise_utc sunset_utc : R) (w : World) :
  let w' := snd (switch sunrise_utc sunset_utc w) in
  let dark := target_dark sunrise_utc sunset_utc w in
  let cur := current_is_dark (current_scheme w) in
  (dark = cur ->
   sets_of (trace w') = sets_of (trace w)
   /\ gsettings_stdout w' = gsettings_stdout w)
  /\ (dark <> cur ->
      sets_of (trace w') = (sets_of (trace w) ++ [scheme_of dark])%list
      /\ (gsettings_set_ok w = true -> current_scheme w' = scheme_of dark))
  /\ (sets_of (trace w') <> sets_of (trace w) -> dark <> cur).
Proof.
  intros w' dark cur. subst w'. rewrite switch_run. fold dark cur.
  destruct (Bool.eqb dark cur) eqn:E.
  - assert (Hsame : sets_of (trace w ++ [PrintSkip cur
        (local_time sunrise_utc w) (local_time sunset_utc w)
        (now_hour w, now_minute w)]) = sets_of (trace w)).
    { rewrite sets_of_app. simpl. apply app_nil_r. }
    apply Bool.eqb_prop in E. simpl. split; [|split].
    + intros _. split; [exact Hsame | reflexivity].
    + intros Hne. contradiction.
    + intros Hch. exfalso. apply Hch. exact Hsame.
  - apply eqb_false_neq in E. split; [|split].
    + intros Heq. contradiction.
    + intros _. split.
      * destruct (gsettings_set_ok w); simpl;
          rewrite !sets_of_app; simpl; rewrite ?app_nil_r; reflexivity.
      * intros Hok. rewrite Hok. unfold current_scheme. simpl. rewrite Hok.
        destruct dark; reflexivity.
    + intros _. exact E.
Qed.

(** C8.  In every run of [main] that reaches the dark/light decision,
    [gsettings set] is run only when the target mode differs from the current
    mode: when they are equal the run issues no set command and what the
    setting reads back is unchanged; when they differ exactly one set command
    with the target scheme is issued, and if it succeeds the setting reads
    back as that scheme. *)
Theorem main_sets_only_on_change
  (w : World) (lat lon sunrise_utc sunset_utc : R) :
  config_file w = Some (Some (lat, lon)) ->
  calc_sunrise_sunset lat lon (today w)
  = inr (Some sunrise_utc, Some sunset_utc) ->
  let w' := snd (main w) in
  let dark := target_dark sunrise_utc sunset_utc w in
  let cur := current_is_dark (current_scheme w) in
  (dark = cur ->
   sets_of (trace w') = sets_of (trace w)
   /\ gsettings_stdout w' = gsettings_stdout w)
  /\ (dark <> cur ->
      sets_of (trace w') = (sets_of (trace w) ++ [scheme_of dark])%list
      /\ (gsettings_set_ok w = true -> current_scheme w' = scheme_of dark))
  /\ (sets_of (trace w') <> sets_of (trace w) -> dark <> cur).
Proof.
  intros Hc Hs. rewrite (main_run_switch w lat lon sunrise_utc sunset_utc Hc Hs).
  apply switch_sets.
Qed.

(** C4.  When the sunrise or the sunset result is the polar marker, [main]
    prints the polar warning and returns: no dark/light message is printed,
    no set command is issued and the setting reads back as before. *)
Theorem main_polar_skips
  (w : World) (lat lon : R) (r : option R * option R) :
  config_file w = Some (Some (lat, lon)) ->
  calc_sunrise_sunset lat lon (today w) = inr r ->
  fst r = None \/ snd r = None ->
  main w = (Return tt, log PrintPolarWarning w)
  /\ trace (snd (main w)) = (trace w ++ [PrintPolarWarning])%list
  /\ sets_of (trace (snd (main w))) = sets_of (trace w)
  /\ gsettings_stdout (snd (main w)) = gsettings_stdout w.
Proof.
  intros Hc Hs Hp. rewrite (main_run_polar w lat lon r Hc Hs Hp). simpl.
  rewrite sets_of_app. simpl. rewrite app_nil_r. repeat split.
Qed.

(** C10.  The current mode is dark exactly when the string read back is
    ["prefer-dark"]; ["prefer-light"], ["default"] and every other string
    count as light: with such a string a light target is skipped and a dark
    target is set. *)
Theorem current_is_dark_exact :
  (forall s : string, current_is_dark s = true <-> s = "prefer-dark"%string)
  /\ current_is_dark "prefer-light" = false
  /\ current_is_dark "default" = false
  /\ (forall (w : World), get_current_scheme w = (Return (current_scheme w), w))
  /\ (forall (sunrise_utc sunset_utc : R) (w : World),
        current_scheme w <> "prefer-dark"%string ->
        (target_dark sunrise_utc sunset_utc w = false ->
         switch sunrise_utc sunset_utc w
         = (Return tt,
            log (PrintSkip false (local_time sunrise_utc w)
                   (local_time sunset_utc w) (now_hour w, now_minute w)) w))
        /\ (target_dark sunrise_utc sunset_utc w = true ->
            gsettings_set_ok w = true ->
            switch sunrise_utc sunset_utc w
            = (Return tt,
               log (PrintOk true (local_time sunrise_utc w)
                      (local_time sunset_utc w) (now_hour w, now_minute w))
                   (gsettings_set "prefer-dark" w)))).
Proof.
  split; [intros s; unfold current_is_dark; apply String.eqb_eq|].
  split; [reflexivity|]. split; [reflexivity|]. split; [reflexivity|].
  intros sr ss w Hne.
  assert (Hcur : current_is_dark (current_scheme w) = false).
  { unfold current_is_dark. apply String.eqb_neq, Hne. }
  split.
  - intros Ht. rewrite switch_run, Ht, Hcur. reflexivity.
  - intros Ht Hok. rewrite switch_run, Ht, Hcur, Hok. reflexivity.
Qed.

(** ** The calculator, step by step *)

Lemma sin_dec_bound (L : R) : -0.39782 <= sun_sin_dec L <= 0.39782.
Proof.
  unfold sun_sin_dec. destruct (SIN_bound (Py.radians L)). lra.
Qed.

(** [math.asin] never raises in [sun_time]. *)
Lemma sun_cos_dec_ok (L : R) :
  sun_cos_dec (sun_sin_dec L) = inr (cos (asin (sun_sin_dec L))).
Proof.
  unfold sun_cos_dec, Py.math_asin, bindE.
  destruct (sin_dec_bound L).
  destruct (Rlt_dec (sun_sin_dec L) (-1)); [lra|].
  destruct (Rlt_dec 1 (sun_sin_dec L)); [lra|]. reflexivity.
Qed.

Lemma cos_asin_pos (s : R) : -0.39782 <= s <= 0.39782 -> 0 < cos (asin s).
Proof.
  intros Hs. rewrite cos_asin by lra. apply sqrt_lt_R0.
  unfold Rsqr. nra.
Qed.

(** The three ways [sun_time] can end. *)
Lemma sun_time_cases (lat : R) (day_of_year : Z) (lng_hour : R) (is_rise : bool) :
  let cos_H := cos_H_value lat day_of_year lng_hour is_rise in
  sun_time lat day_of_year lng_hour is_rise =
  if Req_dec_T (cos (Py.radians lat)) 0 then inl Py.ZeroDivisionError
  else if Rgt_dec cos_H 1 then inr None
  else if Rlt_dec cos_H (-1) then inr None
  else inr (Some (sun_time_value day_of_year lng_hour is_rise cos_H)).
Proof.
  intros cos_H. unfold sun_time.
  rewrite sun_cos_dec_ok. unfold bindE at 1.
  unfold sun_cos_H, Py.div.
  set (L := sun_L (sun_M (sun_t day_of_year lng_hour is_rise))) in *.
  pose proof (cos_asin_pos _ (sin_dec_bound L)) as Hpos.
  destruct (Req_dec_T (cos (Py.radians lat)) 0) as [Hz|Hnz].
  - destruct (Req_dec_T (cos (asin (sun_sin_dec L)) * cos (Py.radians lat)) 0)
      as [_|Hn]; [reflexivity|]. exfalso. apply Hn. rewrite Hz. ring.
  - destruct (Req_dec_T (cos (asin (sun_sin_dec L)) * cos (Py.radians lat)) 0)
      as [Hm|_].
    + exfalso. apply Rmult_integral in Hm. destruct Hm; [lra|contradiction].
    + unfold bindE at 1. fold L. change (_ / _) with cos_H.
      destruct (Rgt_dec cos_H 1); [reflexivity|].
      destruct (Rlt_dec cos_H (-1)); [reflexivity|].
      unfold sun_H, Py.math_acos, bindE.
      destruct (Rlt_dec cos_H (-1)); [lra|].
      destruct (Rlt_dec 1 cos_H); [lra|].
      unfold sun_time_value. fold L. destruct is_rise; reflexivity.
Qed.

(** Case analysis on the tests of [sun_time_cases]. *)
Ltac sun_time_tests :=
  repeat match goal with
  | |- context [Req_dec_T ?a ?b] => destruct (Req_dec_T a b)
  | |- context [Rgt_dec ?a ?b] => destruct (Rgt_dec a b)
  | |- context [Rlt_dec ?a ?b] => destruct (Rlt_dec a b)
  | H : context [Req_dec_T ?a ?b] |- _ => destruct (Req_dec_T a b)
  | H : context [Rgt_dec ?a ?b] |- _ => destruct (Rgt_dec a b)
  | H : context [Rlt_dec ?a ?b] |- _ => destruct (Rlt_dec a b)
  end.

(** When [sun_time] returns a UTC hour, no polar test fired and the hour is
    [sun_time_value]. *)
Lemma sun_time_some (lat : R) (day_of_year : Z) (lng_hour : R)
  (is_rise : bool) (ut : R) :
  sun_time lat day_of_year lng_hour is_rise = inr (Some ut) ->
  let cos_H := cos_H_value lat day_of_year lng_hour is_rise in
  cos (Py.radians lat) <> 0 /\ -1 <= cos_H <= 1
  /\ ut = sun_time_value day_of_year lng_hour is_rise cos_H.
Proof.
  rewrite sun_time_cases. intros H cos_H. fold cos_H in H.
  sun_time_tests; try discriminate.
  injection H as <-. repeat split; try assumption; lra.
Qed.

Lemma sun_time_nonpolar (lat : R) (day_of_year : Z) (lng_hour : R)
  (is_rise : bool) :
  let cos_H := cos_H_value lat day_of_year lng_hour is_rise in
  cos (Py.radians lat) <> 0 -> -1 <= cos_H <= 1 ->
  sun_time lat day_of_year lng_hour is_rise
  = inr (Some (sun_time_value day_of_year lng_hour is_rise cos_H)).
Proof.
  intros cos_H Hnz Hc. rewrite sun_time_cases. fold cos_H.
  sun_time_tests; try contradiction; try lra. reflexivity.
Qed.

Lemma sun_time_polar (lat : R) (day_of_year : Z) (lng_hour : R)
  (is_rise : bool) :
  let cos_H := cos_H_value lat day_of_year lng_hour is_rise in
  cos (Py.radians lat) <> 0 -> cos_H > 1 \/ cos_H < -1 ->
  sun_time lat day_of_year lng_hour is_rise = inr None.
Proof.
  intros cos_H Hnz Hc. rewrite sun_time_cases. fold cos_H.
  sun_time_tests; try contradiction; try reflexivity. lra.
Qed.

(** C6.  In binary64 the UTC hour leaves the half-open day.  At latitude
    35, longitude -70.66579287132296 on 21 June 2024 the local mean time of
    the sunset, line 82, is [T = -4.711052858088198], one unit in the last
    place below [lng_hour = lon / 15.0]; their difference is [- 2 ^ -50],
    and the remainder of line 84 is rounded to 24.0, which is what
    [sun_time] returns.  Over the reals the same two numbers give
    [24 - 2 ^ -50], below 24. *)
Theorem sun_UT_reaches_24 :
  let lng_hour := (-70.66579287132296 / 15.0)%float in
  let T := (-4.711052858088198)%float in
  (T - lng_hour)%float = (-0x1p-50)%float
  /\ sun_UT_binary64 lng_hour T = 24%float
  /\ (sun_UT_binary64 lng_hour T <? 24)%float = false
  /\ sun_UT (Py64.to_R lng_hour) (Py64.to_R T) = 24 - / 2 ^ 50.
Proof.
  intros lng_hour T.
  split; [vm_compute; reflexivity|].
  split; [vm_compute; reflexivity|].
  split; [vm_compute; reflexivity|].
  rewrite (to_R_finite lng_hour true 5304173974052179 (-50))
    by (vm_compute; reflexivity).
  rewrite (to_R_finite T true 5304173974052180 (-50))
    by (vm_compute; reflexivity).
  unfold sun_UT, powerRZ. change (Pos.to_nat 50) with 50%nat.
  rewrite mod_tiny_negative by lra. lra.
Qed.

(** ** The calculator against the specification's formula sequence *)

Lemma lng_hour_literal (lon : R) : lon / 15.0 = lon / 15.
Proof. lra. Qed.

Lemma spec_t_eq (lon : R) (d : date) (is_rise : bool) :
  Spec.t lon d (mode_of is_rise) = sun_t (tm_yday d) (lon / 15.0) is_rise.
Proof.
  unfold Spec.t, sun_t, Spec.dayOfYear, Spec.lngHour.
  rewrite lng_hour_literal. destruct is_rise; reflexivity.
Qed.

Lemma spec_L_eq (lon : R) (d : date) (is_rise : bool) :
  Spec.L lon d (mode_of is_rise)
  = sun_L (sun_M (sun_t (tm_yday d) (lon / 15.0) is_rise)).
Proof.
  unfold Spec.L, Spec.M. rewrite spec_t_eq. reflexivity.
Qed.

Lemma spec_RA_eq (lon : R) (d : date) (is_rise : bool) :
  Spec.RA lon d (mode_of is_rise)
  = sun_RA (sun_L (sun_M (sun_t (tm_yday d) (lon / 15.0) is_rise))).
Proof.
  unfold Spec.RA. rewrite spec_L_eq. reflexivity.
Qed.

Lemma spec_cosH_eq (lat lon : R) (d : date) (is_rise : bool) :
  Spec.cosH lat lon d (mode_of is_rise)
  = cos_H_value lat (tm_yday d) (lon / 15.0) is_rise.
Proof.
  unfold Spec.cosH, Spec.cosDec, Spec.sinDec. rewrite spec_L_eq. reflexivity.
Qed.

Lemma spec_UT_eq (lat lon : R) (d : date) (is_rise : bool) :
  Spec.UT lat lon d (mode_of is_rise)
  = sun_time_value (tm_yday d) (lon / 15.0) is_rise
      (cos_H_value lat (tm_yday d) (lon / 15.0) is_rise).
Proof.
  unfold Spec.UT, Spec.T, Spec.H. rewrite spec_RA_eq, spec_t_eq, spec_cosH_eq.
  unfold sun_time_value, sun_UT, sun_T, Spec.lngHour.
  rewrite lng_hour_literal. destruct is_rise; reflexivity.
Qed.


(** The other direction: where the formula sequence gives a UTC hour and its
    division is defined, [sun_time] returns that hour. *)
Lemma sun_time_complete (lat lon : R) (d : date) (is_rise : bool) (ut : R) :
  cos (Py.radians lat) <> 0 ->
  Spec.solarEvent lat lon d (mode_of is_rise) = Spec.UtcOfDay ut ->
  sun_time lat (tm_yday d) (lon / 15.0) is_rise = inr (Some ut).
Proof.
  intros Hnz. unfold Spec.solarEvent. rewrite spec_cosH_eq, spec_UT_eq.
  destruct (Rgt_dec _ 1); [discriminate|].
  destruct (Rlt_dec _ (-1)); [discriminate|].
  intros E. injection E as <-. apply sun_time_nonpolar; [exact Hnz | lra].
Qed.

(** Polar cases included: where the division is defined, [sun_time] returns
    the event of the formula sequence with its tag erased. *)
Lemma sun_time_untagged (lat lon : R) (d : date) (is_rise : bool) :
  cos (Py.radians lat) <> 0 ->
  sun_time lat (tm_yday d) (lon / 15.0) is_rise
  = inr (untag (Spec.solarEvent lat lon d (mode_of is_rise))).
Proof.
  intros Hnz. rewrite sun_time_cases.
  unfold Spec.solarEvent. rewrite spec_cosH_eq, spec_UT_eq.
  sun_time_tests; try contradiction; reflexivity.
Qed.


(** ** Numerical bounds *)

Lemma PI_bounds : 3.14159 < PI < 3.1416.
Proof.
  pose proof (PI_2_3_7_ineq 2) as H.
  unfold sum_f_R0, tg_alt, PI_2_3_7_tg, Ratan_seq in H.
  simpl in H. lra.
Qed.

Lemma INR_fact (n : nat) (z : Z) :
  Z.of_nat (fact n) = z -> INR (fact n) = IZR z.
Proof. intros <-. apply INR_IZR_INZ. Qed.

Lemma sin_poly (a : R) :
  0 <= a <= PI ->
  a - a^3/6 + a^5/120 - a^7/5040 <= sin a
  <= a - a^3/6 + a^5/120 - a^7/5040 + a^9/362880.
Proof.
  intros [H0 H1]. pose proof (SIN a H0 H1) as H.
  unfold sin_lb, sin_ub, sin_approx, sum_f_R0, sin_term in H.
  rewrite (INR_fact (2 * 0 + 1) 1), (INR_fact (2 * 1 + 1) 6),
    (INR_fact (2 * 2 + 1) 120), (INR_fact (2 * 3 + 1) 5040),
    (INR_fact (2 * 4 + 1) 362880) in H by (vm_compute; reflexivity).
  simpl in H. lra.
Qed.

Lemma cos_poly (a : R) :
  - PI / 2 <= a <= PI / 2 ->
  1 - a^2/2 + a^4/24 - a^6/720 <= cos a
  <= 1 - a^2/2 + a^4/24 - a^6/720 + a^8/40320.
Proof.
  intros [H0 H1]. pose proof (COS a H0 H1) as H.
  unfold cos_lb, cos_ub, cos_approx, sum_f_R0, cos_term in H.
  rewrite (INR_fact (2 * 0) 1), (INR_fact (2 * 1) 2),
    (INR_fact (2 * 2) 24), (INR_fact (2 * 3) 720),
    (INR_fact (2 * 4) 40320) in H by (vm_compute; reflexivity).
  simpl in H. lra.
Qed.

(** Sine and cosine between rational bounds of the angle, in the first
    quadrant. *)
Lemma sin_between (lo x hi : R) :
  0 <= lo -> lo <= x -> x <= hi -> hi <= 1.57 ->
  lo - lo^3/6 + lo^5/120 - lo^7/5040 <= sin x
  <= hi - hi^3/6 + hi^5/120 - hi^7/5040 + hi^9/362880.
Proof.
  intros H0 H1 H2 H3. pose proof PI_bounds.
  assert (Hlo : 0 <= lo <= PI) by lra.
  assert (Hhi : 0 <= hi <= PI) by lra.
  pose proof (sin_poly lo Hlo). pose proof (sin_poly hi Hhi).
  assert (sin lo <= sin x) by (apply sin_incr_1; lra).
  assert (sin x <= sin hi) by (apply sin_incr_1; lra).
  lra.
Qed.

Lemma cos_between (lo x hi : R) :
  0 <= lo -> lo <= x -> x <= hi -> hi <= 1.57 ->
  1 - hi^2/2 + hi^4/24 - hi^6/720 <= cos x
  <= 1 - lo^2/2 + lo^4/24 - lo^6/720 + lo^8/40320.
Proof.
  intros H0 H1 H2 H3. pose proof PI_bounds.
  assert (Hlo : - PI / 2 <= lo <= PI / 2) by lra.
  assert (Hhi : - PI / 2 <= hi <= PI / 2) by lra.
  pose proof (cos_poly lo Hlo). pose proof (cos_poly hi Hhi).
  assert (cos x <= cos lo) by (apply cos_decr_1; lra).
  assert (cos hi <= cos x) by (apply cos_decr_1; lra).
  lra.
Qed.

(** The cosine of the zenith angle 90.833 degrees. *)
Lemma cos_zenith_bounds : -0.01454 <= cos (Py.radians zenith) <= -0.014537.
Proof.
  pose proof PI_bounds.
  assert (E : Py.radians zenith = PI / 2 + 0.833 * (PI / 180)).
  { unfold Py.radians, zenith. lra. }
  rewrite E. pose proof (sin_cos (0.833 * (PI / 180))).
  pose proof (sin_between 0.014538 (0.833 * (PI / 180)) 0.014539).
  lra.
Qed.

(** The true longitude stays within 1.936 degrees of [M + 282.634], taken
    modulo 360. *)
Lemma sun_L_range (M : R) (n : Z) :
  IZR n * 360 <= M + 280.698 -> M + 284.57 < (IZR n + 1) * 360 ->
  M + 280.698 - IZR n * 360 <= sun_L M <= M + 284.57 - IZR n * 360.
Proof.
  intros Hlo Hhi. unfold sun_L, Py.mod_.
  set (x := M + 1.916 * sin (Py.radians M)
            + 0.020 * sin (Py.radians (2 * M)) + 282.634).
  pose proof (SIN_bound (Py.radians M)).
  pose proof (SIN_bound (Py.radians (2 * M))).
  assert (Hx : M + 280.698 <= x <= M + 284.57) by (unfold x; lra).
  assert (E : Int_part (x / 360) = n).
  { apply floor_unique. split.
    - apply Rmult_le_reg_r with 360; [lra|].
      replace (x / 360 * 360) with x by field. lra.
    - apply Rmult_lt_reg_r with 360; [lra|].
      replace (x / 360 * 360) with x by field. lra. }
  rewrite E. lra.
Qed.

Lemma cos_small (x : R) : -0.06 <= x <= 0.06 -> 0.998 <= cos x.
Proof.
  intros Hx. pose proof PI_bounds.
  assert (Hr : - PI / 2 <= x <= PI / 2) by lra.
  pose proof (cos_poly x Hr) as [Hc _].
  assert (0 <= x ^ 2 <= 0.0036) by nra.
  assert (0 <= x ^ 4) by (replace (x ^ 4) with ((x ^ 2) * (x ^ 2)) by ring; nra).
  assert (x ^ 6 <= 0.0036 * x ^ 4)
    by (replace (x ^ 6) with ((x ^ 2) * (x ^ 4)) by ring; nra).
  lra.
Qed.

(** Around the solstices the sine of the true longitude is close to 1 or
    to -1. *)
Lemma sin_near_90 (L : R) : 87 <= L <= 93 -> 0.998 <= sin (Py.radians L).
Proof.
  intros HL. pose proof PI_bounds.
  replace (Py.radians L) with (PI / 2 - Py.radians (90 - L))
    by (unfold Py.radians; lra).
  rewrite sin_shift. apply cos_small. unfold Py.radians. nra.
Qed.

Lemma sin_near_270 (L : R) : 267 <= L <= 273 -> sin (Py.radians L) <= -0.998.
Proof.
  intros HL. pose proof PI_bounds.
  replace (Py.radians L) with (Py.radians (L - 180) + PI)
    by (unfold Py.radians; lra).
  rewrite neg_sin. pose proof (sin_near_90 (L - 180)). lra.
Qed.

(** The cosine of the declination. *)
Lemma cos_dec_square (s : R) :
  -0.39782 <= s <= 0.39782 ->
  0 < cos (asin s) /\ cos (asin s) * cos (asin s) = 1 - s * s.
Proof.
  intros Hs. split; [apply cos_asin_pos, Hs|].
  pose proof (sin2_cos2 (asin s)) as H. unfold Rsqr in H.
  rewrite sin_asin in H by lra. lra.
Qed.

Lemma ratio_lt_m1 (n d : R) : 0 < d -> n + d < 0 -> n / d < -1.
Proof.
  intros Hd Hn. apply Rmult_lt_reg_r with d; [exact Hd|].
  replace (n / d * d) with n by (field; lra). lra.
Qed.

Lemma ratio_gt_1 (n d : R) : 0 < d -> d < n -> n / d > 1.
Proof.
  intros Hd Hn. apply Rlt_gt, Rmult_lt_reg_r with d; [exact Hd|].
  replace (n / d * d) with n by (field; lra). lra.
Qed.

Lemma ratio_between (n d lo hi : R) :
  0 < d -> lo * d <= n <= hi * d -> lo <= n / d <= hi.
Proof.
  intros Hd [H1 H2]. split.
  - apply Rmult_le_reg_r with d; [exact Hd|].
    replace (n / d * d) with n by (field; lra). lra.
  - apply Rmult_le_reg_r with d; [exact Hd|].
    replace (n / d * d) with n by (field; lra). lra.
Qed.

(** Latitude 66, 21 June: the sun does not set. *)
Lemma cos_H_summer_66 (is_rise : bool) :
  cos_H_value 66 173 (0 / 15.0) is_rise < -1.
Proof.
  unfold cos_H_value.
  set (M := sun_M (sun_t 173 (0 / 15.0) is_rise)).
  assert (HM : 167 <= M <= 168).
  { unfold M, sun_M, sun_t. destruct is_rise; lra. }
  pose proof (sun_L_range M 1) as HL. simpl in HL.
  assert (HL' : 87 <= sun_L M <= 93) by lra. clear HL.
  pose proof (sin_near_90 _ HL') as Hsig.
  pose proof (SIN_bound (Py.radians (sun_L M))) as [_ Hsig1].
  pose proof (sin_dec_bound (sun_L M)) as Hs.
  destruct (cos_dec_square _ Hs) as [Hc Hc2].
  set (s := sun_sin_dec (sun_L M)) in *.
  assert (Hs' : 0.39702 <= s) by (unfold s, sun_sin_dec; lra).
  set (c := cos (asin s)) in *.
  assert (Hc' : c <= 0.91782) by nra.
  pose proof PI_bounds.
  assert (Hsl : 0.9135 <= sin (Py.radians 66)).
  { pose proof (sin_between 1.15191 (Py.radians 66) 1.152).
    unfold Py.radians in *. lra. }
  assert (Hcl : 0 < cos (Py.radians 66) <= 0.40675).
  { pose proof (cos_between 1.15191 (Py.radians 66) 1.152).
    unfold Py.radians in *. lra. }
  pose proof cos_zenith_bounds as Hz.
  apply ratio_lt_m1; [nra|].
  set (sl := sin (Py.radians 66)) in *. set (cl := cos (Py.radians 66)) in *.
  set (z := cos (Py.radians zenith)) in *.
  assert (0.39702 * 0.9135 <= s * sl) by nra.
  assert (c * cl <= 0.91782 * 0.40675) by nra.
  lra.
Qed.

(** Latitude 70, 21 December: the sun does not rise. *)
Lemma cos_H_winter_70 (is_rise : bool) :
  cos_H_value 70 356 (0 / 15.0) is_rise > 1.
Proof.
  unfold cos_H_value.
  set (M := sun_M (sun_t 356 (0 / 15.0) is_rise)).
  assert (HM : 347.8 <= M <= 348.4).
  { unfold M, sun_M, sun_t. destruct is_rise; lra. }
  pose proof (sun_L_range M 1) as HL. simpl in HL.
  assert (HL' : 267 <= sun_L M <= 273) by lra. clear HL.
  pose proof (sin_near_270 _ HL') as Hsig.
  pose proof (SIN_bound (Py.radians (sun_L M))) as [Hsig1 _].
  pose proof (sin_dec_bound (sun_L M)) as Hs.
  destruct (cos_dec_square _ Hs) as [Hc Hc2].
  set (s := sun_sin_dec (sun_L M)) in *.
  assert (Hs' : s <= -0.39702) by (unfold s, sun_sin_dec; lra).
  set (c := cos (asin s)) in *.
  assert (Hc' : c <= 0.91782) by nra.
  pose proof PI_bounds.
  assert (Hsl : 0.9396 <= sin (Py.radians 70)).
  { pose proof (sin_between 1.2217 (Py.radians 70) 1.2218).
    unfold Py.radians in *. lra. }
  assert (Hcl : 0 < cos (Py.radians 70) <= 0.3421).
  { pose proof (cos_between 1.2217 (Py.radians 70) 1.2218).
    unfold Py.radians in *. lra. }
  pose proof cos_zenith_bounds as Hz.
  set (sl := sin (Py.radians 70)) in *. set (cl := cos (Py.radians 70)) in *.
  set (z := cos (Py.radians zenith)) in *.
  assert (0.39702 * 0.9396 <= (- s) * sl) by nra.
  assert (c * cl <= 0.91782 * 0.3421) by nra.
  apply ratio_gt_1; [nra|]. lra.
Qed.

(** The true longitude when the sine of the mean anomaly is known more
    closely than within 1. *)
Lemma sun_L_near (M lo hi : R) (n : Z) :
  lo <= sin (Py.radians M) <= hi ->
  IZR n * 360 <= M + 1.916 * lo + 282.614 ->
  M + 1.916 * hi + 282.654 < (IZR n + 1) * 360 ->
  M + 1.916 * lo + 282.614 - IZR n * 360 <= sun_L M
  <= M + 1.916 * hi + 282.654 - IZR n * 360.
Proof.
  intros Hs Hlo Hhi. unfold sun_L, Py.mod_.
  set (x := M + 1.916 * sin (Py.radians M)
            + 0.020 * sin (Py.radians (2 * M)) + 282.634).
  pose proof (SIN_bound (Py.radians (2 * M))).
  assert (Hx : M + 1.916 * lo + 282.614 <= x <= M + 1.916 * hi + 282.654)
    by (unfold x; lra).
  assert (E : Int_part (x / 360) = n).
  { apply floor_unique. split.
    - apply Rmult_le_reg_r with 360; [lra|].
      replace (x / 360 * 360) with x by field. lra.
    - apply Rmult_lt_reg_r with 360; [lra|].
      replace (x / 360 * 360) with x by field. lra. }
  rewrite E. lra.
Qed.

(** The sine of the mean anomaly in the second half of June. *)
Lemma sin_anomaly_june (M : R) :
  166 <= M <= 168 -> 0.2 <= sin (Py.radians M) <= 0.25.
Proof.
  intros HM. pose proof PI_bounds.
  replace (Py.radians M) with (PI - Py.radians (180 - M))
    by (unfold Py.radians; lra).
  rewrite sin_PI_x.
  pose proof (sin_between 0.2094 (Py.radians (180 - M)) 0.2444).
  unfold Py.radians in *. nra.
Qed.

(** Within 0.6 degrees of the solstice the sine of the true longitude is
    1 up to one part in ten thousand. *)
Lemma sin_at_solstice (L : R) :
  89.4 <= L <= 90.6 -> 0.9999 <= sin (Py.radians L).
Proof.
  intros HL. pose proof PI_bounds.
  replace (Py.radians L) with (PI / 2 - Py.radians (90 - L))
    by (unfold Py.radians; lra).
  rewrite sin_shift.
  set (x := Py.radians (90 - L)).
  assert (Hx : -0.0105 <= x <= 0.0105) by (unfold x, Py.radians; nra).
  assert (Hr : - PI / 2 <= x <= PI / 2) by lra.
  pose proof (cos_poly x Hr) as [Hc _].
  assert (0 <= x ^ 2 <= 0.00011025) by nra.
  assert (0 <= x ^ 4) by (replace (x ^ 4) with ((x ^ 2) * (x ^ 2)) by ring; nra).
  assert (x ^ 6 <= 0.00011025 * x ^ 4)
    by (replace (x ^ 6) with ((x ^ 2) * (x ^ 4)) by ring; nra).
  lra.
Qed.

(** The declination of the formula is at most [asin 0.39782], about 23.44
    degrees. *)
Lemma asin_dec_bound (s : R) :
  -0.39782 <= s <= 0.39782 -> - (0.40916) <= asin s <= 0.40916.
Proof.
  intros Hs. pose proof PI_bounds as HPI.
  assert (Hsin : 0.39782 < sin 0.40916).
  { pose proof (sin_between 0.40916 0.40916 0.40916). lra. }
  assert (Hb : - (PI / 2) <= asin s <= PI / 2) by (apply asin_bound).
  assert (Hss : sin (asin s) = s) by (apply sin_asin; lra).
  split.
  - destruct (Rle_dec (- (0.40916)) (asin s)) as [H|H]; [exact H|].
    exfalso. apply Rnot_le_lt in H.
    assert (H0 : sin (asin s) < sin (- (0.40916)))
      by (apply sin_increasing_1; lra).
    rewrite sin_neg in H0. lra.
  - destruct (Rle_dec (asin s) 0.40916) as [H|H]; [exact H|].
    exfalso. apply Rnot_le_lt in H.
    assert (sin 0.40916 < sin (asin s)) by (apply sin_increasing_1; lra).
    lra.
Qed.

(** The cosine decreases with the distance from zero, up to a half turn. *)
Lemma cos_ge_at (x b : R) : - b <= x <= b -> b <= PI -> cos b <= cos x.
Proof.
  intros Hx Hb.
  destruct (Rle_dec 0 x) as [H0|H0].
  - apply cos_decr_1; lra.
  - rewrite <- (cos_neg x). apply cos_decr_1; lra.
Qed.

(** Up to latitude 65.72 the cosine of the hour angle stays in [-1, 1],
    whatever the day and the longitude.  With [phi] the latitude and [dec]
    the declination, the numerator plus the denominator is
    [cos zenith + cos (phi - dec)] and their difference is
    [cos zenith - cos (phi + dec)]; [phi + dec] stays within
    [180 - zenith = 89.167] degrees of zero. *)
Lemma cos_H_bound (lat : R) (day_of_year : Z) (lng_hour : R) (is_rise : bool) :
  -65.72 <= lat <= 65.72 ->
  -1 <= cos_H_value lat day_of_year lng_hour is_rise <= 1.
Proof.
  intros Hlat. unfold cos_H_value.
  set (L := sun_L (sun_M (sun_t day_of_year lng_hour is_rise))).
  pose proof (sin_dec_bound L) as Hs.
  pose proof (cos_asin_pos _ Hs) as Hc.
  pose proof (asin_dec_bound _ Hs) as Hd.
  assert (Hss : sin (asin (sun_sin_dec L)) = sun_sin_dec L)
    by (apply sin_asin; lra).
  set (s := sun_sin_dec L) in *. set (dec := asin s) in *.
  pose proof PI_bounds as HPI.
  set (phi := Py.radians lat).
  assert (Hphi : -1.14704 <= phi <= 1.14704) by (unfold phi, Py.radians; nra).
  assert (Hcl : 0 < cos phi) by (apply cos_gt_0; lra).
  set (z := Py.radians zenith).
  assert (Hz : 1.5853 <= z <= 1.58535) by (unfold z, Py.radians, zenith; nra).
  assert (Hnoon : - cos z <= cos (phi + dec)).
  { replace (- cos z) with (cos (PI - z)).
    - apply cos_ge_at; lra.
    - replace (PI - z) with (- z + PI) by ring. rewrite neg_cos, cos_neg. ring. }
  assert (Hnight : cos z <= cos (phi - dec)).
  { apply cos_ge_at; lra. }
  rewrite cos_plus in Hnoon. rewrite cos_minus in Hnight.
  fold phi z. rewrite <- Hss.
  apply ratio_between; [nra|]. lra.
Qed.

(** Latitude 65.73, 20 June: the sun does not set.  The true longitude is
    within 0.6 degrees of 90, the declination above 0.40906 radians, and
    [phi + dec] beyond 89.167 degrees. *)
Lemma cos_H_summer_65_73 (is_rise : bool) :
  cos_H_value 65.73 172 (0 / 15.0) is_rise < -1.
Proof.
  unfold cos_H_value.
  set (M := sun_M (sun_t 172 (0 / 15.0) is_rise)).
  assert (HM : 166.48 <= M <= 166.98).
  { unfold M, sun_M, sun_t. destruct is_rise; lra. }
  assert (HsM : 0.2 <= sin (Py.radians M) <= 0.25)
    by (apply sin_anomaly_june; lra).
  pose proof (sun_L_near M 0.2 0.25 1 HsM) as HL. simpl in HL.
  assert (HL' : 89.4 <= sun_L M <= 90.6) by lra. clear HL.
  pose proof (sin_at_solstice _ HL') as Hsig.
  pose proof (sin_dec_bound (sun_L M)) as Hs.
  pose proof (cos_asin_pos _ Hs) as Hc.
  assert (Hss : sin (asin (sun_sin_dec (sun_L M))) = sun_sin_dec (sun_L M))
    by (apply sin_asin; lra).
  assert (Hb : - (PI / 2) <= asin (sun_sin_dec (sun_L M)) <= PI / 2)
    by apply asin_bound.
  set (s := sun_sin_dec (sun_L M)) in *. set (dec := asin s) in *.
  assert (Hs' : 0.39778 <= s) by (unfold s, sun_sin_dec; lra).
  pose proof PI_bounds as HPI.
  assert (Hdec : 0.40906 < dec).
  { destruct (Rlt_dec 0.40906 dec) as [H|H]; [exact H|].
    exfalso. apply Rnot_lt_le in H.
    assert (sin dec <= sin 0.40906) by (apply sin_incr_1; lra).
    pose proof (sin_between 0.40906 0.40906 0.40906). lra. }
  set (phi := Py.radians 65.73).
  assert (Hphi : 1.1472 <= phi <= 1.1473) by (unfold phi, Py.radians; nra).
  assert (Hcl : 0 < cos phi) by (apply cos_gt_0; lra).
  set (z := Py.radians zenith).
  assert (Hz : PI - z < phi + dec).
  { unfold z, phi, Py.radians, zenith. lra. }
  assert (Hnoon : cos (phi + dec) < - cos z).
  { replace (- cos z) with (cos (PI - z)).
    - apply cos_decreasing_1; try lra.
      unfold z, Py.radians, zenith. lra.
    - replace (PI - z) with (- z + PI) by ring. rewrite neg_cos, cos_neg. ring. }
  rewrite cos_plus in Hnoon.
  fold phi z. rewrite <- Hss.
  apply ratio_lt_m1; [nra|]. lra.
Qed.

(** ** Polar and non-polar runs of the calculator *)

Lemma cos_radians_pos (lat : R) : -90 < lat < 90 -> 0 < cos (Py.radians lat).
Proof.
  intros H. pose proof PI_RGT_0.
  apply cos_gt_0; unfold Py.radians; nra.
Qed.

Lemma calc_nonpolar (lat lon : R) (d : date) :
  -65.72 <= lat <= 65.72 ->
  calc_sunrise_sunset lat lon d
  = inr (Some (event_value lat lon d true), Some (event_value lat lon d false)).
Proof.
  intros Hlat.
  assert (Hnz : cos (Py.radians lat) <> 0).
  { apply Rgt_not_eq, cos_radians_pos. lra. }
  unfold calc_sunrise_sunset, event_value.
  rewrite !sun_time_nonpolar; try exact Hnz.
  - reflexivity.
  - exact (cos_H_bound lat (tm_yday d) (lon / 15.0) false Hlat).
  - exact (cos_H_bound lat (tm_yday d) (lon / 15.0) true Hlat).
Qed.

Lemma calc_midsummer_66 :
  calc_sunrise_sunset 66 0 midsummer = inr (None, None).
Proof.
  assert (Hnz : cos (Py.radians 66) <> 0).
  { apply Rgt_not_eq, cos_radians_pos. lra. }
  unfold calc_sunrise_sunset.
  change (tm_yday midsummer) with 173%Z.
  rewrite !sun_time_polar; try exact Hnz; try reflexivity;
    right; apply cos_H_summer_66.
Qed.

Lemma calc_midsummer_eve_65_73 :
  calc_sunrise_sunset 65.73 0 midsummer_eve = inr (None, None).
Proof.
  assert (Hnz : cos (Py.radians 65.73) <> 0).
  { apply Rgt_not_eq, cos_radians_pos. lra. }
  unfold calc_sunrise_sunset.
  change (tm_yday midsummer_eve) with 172%Z.
  rewrite !sun_time_polar; try exact Hnz; try reflexivity;
    right; apply cos_H_summer_65_73.
Qed.

Lemma calc_midwinter_70 :
  calc_sunrise_sunset 70 0 midwinter = inr (None, None).
Proof.
  assert (Hnz : cos (Py.radians 70) <> 0).
  { apply Rgt_not_eq, cos_radians_pos. lra. }
  unfold calc_sunrise_sunset.
  change (tm_yday midwinter) with 356%Z.
  rewrite !sun_time_polar; try exact Hnz; try reflexivity;
    left; apply cos_H_winter_70.
Qed.

(** ** Degrees *)




(** ** Polar results *)

(** C2, as the code has it.  Where the division is defined, [sun_time]
    returns [None] when the cosine of the hour angle exceeds 1 and the same
    [None] when it is below -1; a UTC hour is returned only when the cosine
    lies in [-1, 1], so [None] is told apart from every hour, but the two
    polar cases are not told apart from each other. *)
Theorem sun_time_polar_marker (lat : R) (day_of_year : Z) (lng_hour : R)
  (is_rise : bool) :
  cos (Py.radians lat) <> 0 ->
  let cos_H := cos_H_value lat day_of_year lng_hour is_rise in
  (cos_H > 1 -> sun_time lat day_of_year lng_hour is_rise = inr None)
  /\ (cos_H < -1 -> sun_time lat day_of_year lng_hour is_rise = inr None)
  /\ (forall ut : R,
        sun_time lat day_of_year lng_hour is_rise = inr (Some ut) ->
        -1 <= cos_H <= 1).
Proof.
  intros Hnz cos_H. repeat split.
  - intros H. apply sun_time_polar; [exact Hnz | left; exact H].
  - intros H. apply sun_time_polar; [exact Hnz | right; exact H].
  - destruct (sun_time_some _ _ _ _ _ H) as (_ & Hc & _). apply Hc.
  - destruct (sun_time_some _ _ _ _ _ H) as (_ & Hc & _). apply Hc.
Qed.

Lemma sun_time_polar_marker_witness :
  cos (Py.radians 70) <> 0
  /\ cos_H_value 70 (tm_yday midwinter) (0 / 15.0) true > 1
  /\ sun_time 70 (tm_yday midwinter) (0 / 15.0) true = inr None.
Proof.
  assert (Hnz : cos (Py.radians 70) <> 0).
  { apply Rgt_not_eq, cos_radians_pos. lra. }
  assert (Hc : cos_H_value 70 (tm_yday midwinter) (0 / 15.0) true > 1)
    by exact (cos_H_winter_70 true).
  exact (conj Hnz (conj Hc
    (proj1 (sun_time_polar_marker 70 (tm_yday midwinter) (0 / 15.0) true Hnz)
       Hc))).
Defined.

(** C2 as stated fails: in the polar night of latitude 70 the cosine exceeds
    1, in the midnight sun of latitude 66 it is below -1, and [sun_time]
    returns the same value in both. *)
Lemma polar_outcomes_coincide :
  cos_H_value 70 (tm_yday midwinter) (0 / 15.0) true > 1
  /\ cos_H_value 66 (tm_yday midsummer) (0 / 15.0) false < -1
  /\ sun_time 70 (tm_yday midwinter) (0 / 15.0) true
     = sun_time 66 (tm_yday midsummer) (0 / 15.0) false.
Proof.
  split; [exact (cos_H_winter_70 true)|].
  split; [exact (cos_H_summer_66 false)|].
  rewrite !sun_time_polar.
  - reflexivity.
  - apply Rgt_not_eq, cos_radians_pos. lra.
  - right. exact (cos_H_summer_66 false).
  - apply Rgt_not_eq, cos_radians_pos. lra.
  - left. exact (cos_H_winter_70 true).
Qed.

(** ** Latitudes below the polar circles *)

(** C5 as stated fails: at latitude 65.73, inside (-66.5, 66.5), both
    events of 20 June 2024 are polar. *)
Lemma polar_day_at_65_73 :
  -66.5 < 65.73 < 66.5 /\ valid_date midsummer_eve
  /\ calc_sunrise_sunset 65.73 0 midsummer_eve = inr (None, None).
Proof.
  split; [lra|]. split; [|exact calc_midsummer_eve_65_73].
  unfold valid_date, midsummer_eve. cbn [year month day].
  change (days_in_month 2024 6) with 30%Z. lia.
Qed.

(** C5, for latitudes up to 65.72 degrees.  For every latitude in
    [-65.72, 65.72], every longitude and every date, the cosine of the hour
    angle stays in [-1, 1] for both events, and [calc_sunrise_sunset]
    returns two UTC hours, neither of them [None]. *)
Theorem calc_sunrise_sunset_nonpolar (lat lon : R) (d : date) :
  -65.72 <= lat <= 65.72 ->
  exists sunrise sunset : R,
    calc_sunrise_sunset lat lon d = inr (Some sunrise, Some sunset)
    /\ -1 <= cos_H_value lat (tm_yday d) (lon / 15.0) true <= 1
    /\ -1 <= cos_H_value lat (tm_yday d) (lon / 15.0) false <= 1.
Proof.
  intros Hlat.
  exists (event_value lat lon d true), (event_value lat lon d false).
  split; [apply calc_nonpolar, Hlat|].
  split; apply cos_H_bound, Hlat.
Qed.

Lemma calc_sunrise_sunset_nonpolar_witness :
  -65.72 <= 35 <= 65.72
  /\ exists sunrise sunset : R,
       calc_sunrise_sunset 35 139 midsummer = inr (Some sunrise, Some sunset)
       /\ -1 <= cos_H_value 35 (tm_yday midsummer) (139 / 15.0) true <= 1
       /\ -1 <= cos_H_value 35 (tm_yday midsummer) (139 / 15.0) false <= 1.
Proof.
  assert (Hlat : -65.72 <= 35 <= 65.72) by lra.
  exact (conj Hlat (calc_sunrise_sunset_nonpolar 35 139 midsummer Hlat)).
Defined.

(** ** Instances *)

Lemma local_time_whole (h : Z) (w : World) :
  utcoffset_total_seconds w = 0 -> (0 <= h < 24)%Z ->
  local_time (IZR h) w = (h, 0%Z).
Proof.
  intros Hoff Hh. unfold local_time, utc_hours_to_local_time. cbn [fst].
  assert (Hr : 0 <= IZR h < 24).
  { split; [apply IZR_le | apply IZR_lt]; lia. }
  rewrite Hoff. replace (IZR h + 0 / 3600) with (IZR h) by lra.
  rewrite (mod_small (IZR h) 24) by exact Hr.
  assert (Eh : Py.int (IZR h) = h).
  { rewrite int_nonneg by lra. apply floor_unique. lra. }
  rewrite Eh. f_equal.
  replace ((IZR h - IZR h) * 60) with 0 by ring.
  rewrite int_nonneg by lra. apply floor_unique. simpl. lra.
Qed.


Lemma main_polar_skips_witness :
  config_file arctic_world = Some (Some (66, 0))
  /\ calc_sunrise_sunset 66 0 (today arctic_world) = inr (None, None)
  /\ main arctic_world = (Return tt, log PrintPolarWarning arctic_world).
Proof.
  assert (Hc : config_file arctic_world = Some (Some (66, 0)))
    by reflexivity.
  assert (Hp : fst (@None R, @None R) = None \/ snd (@None R, @None R) = None)
    by (left; reflexivity).
  exact (conj Hc (conj calc_midsummer_66
    (proj1 (main_polar_skips arctic_world 66 0 (None, None)
              Hc calc_midsummer_66 Hp)))).
Defined.

Lemma main_sets_only_on_change_witness :
  config_file evening_world = Some (Some (35, 139))
  /\ calc_sunrise_sunset 35 139 (today evening_world)
     = inr (Some (event_value 35 139 midsummer true),
            Some (event_value 35 139 midsummer false))
  /\ (sets_of (trace (snd (main evening_world)))
      <> sets_of (trace evening_world) ->
      target_dark (event_value 35 139 midsummer true)
                  (event_value 35 139 midsummer false) evening_world
      <> current_is_dark (current_scheme evening_world)).
Proof.
  assert (Hc : config_file evening_world = Some (Some (35, 139)))
    by reflexivity.
  assert (Hlat : -65.72 <= 35 <= 65.72) by lra.
  pose proof (calc_nonpolar 35 139 midsummer Hlat) as Hs.
  exact (conj Hc (conj Hs
    (proj2 (proj2 (main_sets_only_on_change evening_world 35 139 _ _ Hc Hs))))).
Defined.

Lemma current_is_dark_exact_witness :
  current_scheme evening_world <> "prefer-dark"%string
  /\ target_dark 6 18 evening_world = true
  /\ gsettings_set_ok evening_world = true
  /\ switch 6 18 evening_world
     = (Return tt,
        log (PrintOk true (local_time 6 evening_world)
               (local_time 18 evening_world)
               (now_hour evening_world, now_minute evening_world))
            (gsettings_set "prefer-dark" evening_world)).
Proof.
  assert (Hne : current_scheme evening_world <> "prefer-dark"%string)
    by (vm_compute; discriminate).
  assert (Ht : target_dark 6 18 evening_world = true).
  { unfold target_dark, local_minutes.
    rewrite (local_time_whole 6 evening_world),
      (local_time_whole 18 evening_world) by (try reflexivity; lia).
    reflexivity. }
  assert (Hok : gsettings_set_ok evening_world = true) by reflexivity.
  destruct current_is_dark_exact as (_ & _ & _ & _ & Hrun).
  exact (conj Hne (conj Ht (conj Hok
    (proj2 (Hrun 6 18 evening_world Hne) Ht Hok)))).
Defined.

(** ** More on the calculator *)

(** X2.  For a latitude strictly between the poles the calculator returns a
    pair, and each component is [None] exactly when the cosine of the hour
    angle of that event is outside [-1, 1]. *)
Theorem calc_returns_between_poles (lat lon : R) (d : date) :
  -90 < lat < 90 ->
  exists rise set : option R,
    calc_sunrise_sunset lat lon d = inr (rise, set)
    /\ (rise = None <->
        cos_H_value lat (tm_yday d) (lon / 15.0) true > 1
        \/ cos_H_value lat (tm_yday d) (lon / 15.0) true < -1)
    /\ (set = None <->
        cos_H_value lat (tm_yday d) (lon / 15.0) false > 1
        \/ cos_H_value lat (tm_yday d) (lon / 15.0) false < -1).
Proof.
  intros Hlat.
  assert (Hnz : cos (Py.radians lat) <> 0)
    by (apply Rgt_not_eq, cos_radians_pos, Hlat).
  assert (Hone : forall is_rise : bool, exists r : option R,
    sun_time lat (tm_yday d) (lon / 15.0) is_rise = inr r
    /\ (r = None <->
        cos_H_value lat (tm_yday d) (lon / 15.0) is_rise > 1
        \/ cos_H_value lat (tm_yday d) (lon / 15.0) is_rise < -1)).
  { intros is_rise. rewrite sun_time_cases.
    sun_time_tests; try contradiction;
      eexists; (split; [reflexivity|]);
      split; intros H; try discriminate; try reflexivity;
      try (left; assumption); try (right; assumption).
    destruct H; lra. }
  destruct (Hone true) as (r & Hr & Hr').
  destruct (Hone false) as (s & Hs & Hs').
  exists r, s. unfold calc_sunrise_sunset, bindE. rewrite Hr, Hs.
  repeat split; try apply Hr'; try apply Hs'.
Qed.

Lemma calc_returns_between_poles_witness :
  -90 < 35 < 90
  /\ exists rise set : option R,
       calc_sunrise_sunset 35 139 midsummer = inr (rise, set)
       /\ (rise = None <->
           cos_H_value 35 (tm_yday midsummer) (139 / 15.0) true > 1
           \/ cos_H_value 35 (tm_yday midsummer) (139 / 15.0) true < -1)
       /\ (set = None <->
           cos_H_value 35 (tm_yday midsummer) (139 / 15.0) false > 1
           \/ cos_H_value 35 (tm_yday midsummer) (139 / 15.0) false < -1).
Proof.
  assert (Hlat : -90 < 35 < 90) by lra.
  exact (conj Hlat (calc_returns_between_poles 35 139 midsummer Hlat)).
Defined.



(** ** Stripping the output of [gsettings] *)

Lemma lstrip_starts (p : ascii -> bool) (s : string) :
  starts_with p (lstrip p s) = false.
Proof.
  induction s as [|c s IH]; [reflexivity|].
  simpl. destruct (p c) eqn:E; [exact IH|]. simpl. exact E.
Qed.

Lemma lstrip_fixed (p : ascii -> bool) (s : string) :
  starts_with p s = false -> lstrip p s = s.
Proof. destruct s as [|c s]; simpl; [reflexivity|]. intros ->. reflexivity. Qed.

Lemma rstrip_ends (p : ascii -> bool) (s : string) :
  ends_with p (rstrip p s) = false.
Proof.
  induction s as [|c s IH]; [reflexivity|].
  simpl. destruct (rstrip p s) as [|a r] eqn:E.
  - destruct (p c) eqn:Ec; simpl; [reflexivity|exact Ec].
  - exact IH.
Qed.

Lemma rstrip_fixed (p : ascii -> bool) (s : string) :
  ends_with p s = false -> rstrip p s = s.
Proof.
  induction s as [|c s IH]; [reflexivity|].
  destruct s as [|a s'].
  - simpl. intros ->. reflexivity.
  - intros H. change (ends_with p (String a s') = false) in H.
    change (rstrip p (String c (String a s')))
      with (match rstrip p (String a s') with
            | EmptyString => if p c then EmptyString else String c EmptyString
            | r => String c r
            end).
    rewrite (IH H). reflexivity.
Qed.

Lemma rstrip_starts (p : ascii -> bool) (s : string) :
  starts_with p s = false -> starts_with p (rstrip p s) = false.
Proof.
  destruct s as [|c s]; [reflexivity|].
  simpl. intros Hc. destruct (rstrip p s); [rewrite Hc|]; simpl; auto.
Qed.

Lemma rstrip_snoc_drop (p : ascii -> bool) (s : string) (c : ascii) :
  p c = true -> rstrip p (s ++ String c EmptyString) = rstrip p s.
Proof.
  intros Hc. induction s as [|a s IH].
  - simpl. rewrite Hc. reflexivity.
  - simpl. rewrite IH. reflexivity.
Qed.

Lemma ends_with_snoc (p : ascii -> bool) (s : string) (c : ascii) :
  ends_with p (s ++ String c EmptyString) = p c.
Proof.
  induction s as [|a s IH]; [reflexivity|].
  simpl. destruct (s ++ String c EmptyString)%string eqn:E.
  - destruct s; discriminate.
  - exact IH.
Qed.

Lemma append_snoc (s t : string) (c : ascii) :
  (s ++ String c t = (s ++ String c EmptyString) ++ t)%string.
Proof. induction s as [|a s IH]; simpl; [reflexivity|]. rewrite IH. reflexivity. Qed.

Lemma strip_quoted_line (value : string) :
  starts_with is_quote value = false -> ends_with is_quote value = false ->
  strip is_quote (strip is_space (gsettings_line value)) = value.
Proof.
  intros Hs He. unfold gsettings_line, strip, nl.
  change ("'" ++ value ++ "'" ++ String (ascii_of_nat 10) EmptyString)%string
    with (String "'"%char
            (value ++ String "'"%char (String (ascii_of_nat 10) EmptyString))).
  rewrite (lstrip_fixed is_space) by reflexivity.
  rewrite append_snoc.
  change (String "'"%char
            ((value ++ String "'"%char EmptyString)
             ++ String (ascii_of_nat 10) EmptyString))%string
    with ((String "'"%char (value ++ String "'"%char EmptyString))
          ++ String (ascii_of_nat 10) EmptyString)%string.
  rewrite (rstrip_snoc_drop is_space) by reflexivity.
  rewrite (rstrip_fixed is_space).
  2:{ change (String "'"%char (value ++ String "'"%char EmptyString))
        with ((String "'"%char value) ++ String "'"%char EmptyString)%string.
      rewrite ends_with_snoc. reflexivity. }
  change (lstrip is_quote (String "'"%char (value ++ String "'"%char EmptyString)))
    with (lstrip is_quote (value ++ String "'"%char EmptyString)).
  destruct value as [|a v]; [reflexivity|].
  simpl in Hs.
  change (lstrip is_quote (String a v ++ String "'"%char EmptyString))
    with (if is_quote a then lstrip is_quote (v ++ String "'"%char EmptyString)
          else String a (v ++ String "'"%char EmptyString)).
  rewrite Hs.
  change (String a (v ++ String "'"%char EmptyString))
    with (String a v ++ String "'"%char EmptyString)%string.
  rewrite (rstrip_snoc_drop is_quote) by reflexivity.
  apply rstrip_fixed, He.
Qed.

(** X5.  Whatever [gsettings] prints, the scheme [get_current_scheme]
    returns has no single quote at either end, and the world is left as it
    was. *)
Theorem get_current_scheme_unquoted (w : World) :
  exists current : string,
    get_current_scheme w = (Return current, w)
    /\ starts_with is_quote current = false
    /\ ends_with is_quote current = false.
Proof.
  exists (current_scheme w). split; [reflexivity|].
  unfold current_scheme, strip. split.
  - apply rstrip_starts, lstrip_starts.
  - apply rstrip_ends.
Qed.

(** X6.  When [gsettings] prints a value between single quotes followed by
    a newline, [get_current_scheme] returns exactly that value, provided the
    value is made of printable ASCII characters (so that decoding the output
    as text and translating its newlines change nothing) and has no single
    quote at either end; spaces inside the quotes are kept. *)
Theorem get_current_scheme_reads_value (value : string) (w : World) :
  gsettings_stdout w = gsettings_line value ->
  printable value = true ->
  starts_with is_quote value = false -> ends_with is_quote value = false ->
  get_current_scheme w = (Return value, w).
Proof.
  intros Hout _ Hs He. unfold get_current_scheme.
  rewrite Hout, (strip_quoted_line value Hs He). reflexivity.
Qed.

Lemma get_current_scheme_reads_value_witness :
  gsettings_stdout evening_world = gsettings_line "default"
  /\ printable "default" = true
  /\ starts_with is_quote "default" = false
  /\ ends_with is_quote "default" = false
  /\ get_current_scheme evening_world = (Return "default"%string, evening_world).
Proof.
  assert (Hout : gsettings_stdout evening_world = gsettings_line "default")
    by reflexivity.
  assert (Hp : printable "default" = true) by reflexivity.
  assert (Hs : starts_with is_quote "default" = false) by reflexivity.
  assert (He : ends_with is_quote "default" = false) by reflexivity.
  exact (conj Hout (conj Hp (conj Hs (conj He
    (get_current_scheme_reads_value "default" evening_world Hout Hp Hs He))))).
Defined.

(** X7.  Writing then reading: after a [set_scheme] that succeeds,
    [get_current_scheme] returns the scheme that was written, and that
    scheme counts as dark exactly when dark was asked for. *)
Theorem set_scheme_then_get (dark : bool) (w : World) :
  gsettings_set_ok w = true ->
  exists w' : World,
    set_scheme dark w = (Return (scheme_of dark), w')
    /\ get_current_scheme w' = (Return (scheme_of dark), w')
    /\ current_is_dark (scheme_of dark) = dark.
Proof.
  intros Hok. exists (gsettings_set (scheme_of dark) w).
  unfold set_scheme. fold (scheme_of dark). rewrite Hok.
  split; [reflexivity|]. split.
  - unfold get_current_scheme, gsettings_set. cbn [gsettings_stdout].
    rewrite Hok. fold (gsettings_line (scheme_of dark)).
    rewrite strip_quoted_line by (destruct dark; reflexivity).
    reflexivity.
  - destruct dark; reflexivity.
Qed.

Lemma set_scheme_then_get_witness :
  gsettings_set_ok evening_world = true
  /\ exists w' : World,
       set_scheme true evening_world = (Return (scheme_of true), w')
       /\ get_current_scheme w' = (Return (scheme_of true), w')
       /\ current_is_dark (scheme_of true) = true.
Proof.
  assert (Hok : gsettings_set_ok evening_world = true) by reflexivity.
  exact (conj Hok (set_scheme_then_get true evening_world Hok)).
Defined.

(** ** More on the runs of [main] *)

(** Every way a run of [main] can go. *)
Lemma main_cases (w : World) :
  main w =
  match config_file w with
  | None => (SysExit 1, log PrintConfigMissing w)
  | Some None => (Raise Py.ConfigError, w)
  | Some (Some (lat, lon)) =>
      match calc_sunrise_sunset lat lon (today w) with
      | inl e => (Raise e, w)
      | inr (Some sunrise_utc, Some sunset_utc) =>
          switch sunrise_utc sunset_utc w
      | inr _ => (Return tt, log PrintPolarWarning w)
      end
  end.
Proof.
  unfold main, bind, load_config, date_today, lift, emit, sys_exit.
  destruct (config_file w) as [[[lat lon]|]|]; try reflexivity.
  destruct (calc_sunrise_sunset lat lon (today w)) as [e|[[u|] [v|]]];
    reflexivity.
Qed.

(** Printing and [gsettings set] leave the clock, the time zone, the
    configuration and the date alone. *)
Lemma target_dark_log (sr ss : R) (e : event) (w : World) :
  target_dark sr ss (log e w) = target_dark sr ss w.
Proof. reflexivity. Qed.

Lemma target_dark_gsettings_set (sr ss : R) (s : string) (w : World) :
  target_dark sr ss (gsettings_set s w) = target_dark sr ss w.
Proof. reflexivity. Qed.

Lemma current_scheme_after_set (dark : bool) (w : World) :
  gsettings_set_ok w = true ->
  current_scheme (gsettings_set (scheme_of dark) w) = scheme_of dark.
Proof.
  intros Hok. unfold current_scheme, gsettings_set. cbn [gsettings_stdout].
  rewrite Hok. destruct dark; reflexivity.
Qed.

Lemma current_is_dark_scheme_of (dark : bool) :
  current_is_dark (scheme_of dark) = dark.
Proof. destruct dark; reflexivity. Qed.

(** What a run of [switch] that returns leaves behind. *)
Lemma switch_returns (sr ss : R) (w : World) :
  fst (switch sr ss w) = Return tt ->
  let w' := snd (switch sr ss w) in
  current_is_dark (current_scheme w') = target_dark sr ss w
  /\ config_file w' = config_file w /\ today w' = today w
  /\ target_dark sr ss w' = target_dark sr ss w
  /\ gsettings_set_ok w' = gsettings_set_ok w.
Proof.
  rewrite switch_run.
  destruct (Bool.eqb (target_dark sr ss w)
              (current_is_dark (current_scheme w))) eqn:E.
  - intros _. apply Bool.eqb_prop in E. simpl.
    split; [symmetry; exact E|]. repeat split.
  - destruct (gsettings_set_ok w) eqn:Hok; [|discriminate].
    intros _. simpl. split; [|repeat split; exact Hok].
    change (current_is_dark (current_scheme
              (gsettings_set (scheme_of (target_dark sr ss w)) w))
            = target_dark sr ss w).
    rewrite (current_scheme_after_set _ w Hok).
    apply current_is_dark_scheme_of.
Qed.

(** X8.  After a run of [main] that gets past the polar check and returns,
    the scheme read back agrees with the target: it is ["prefer-dark"]
    exactly when the decision was dark. *)
Theorem main_establishes_target
  (w : World) (lat lon sunrise_utc sunset_utc : R) :
  config_file w = Some (Some (lat, lon)) ->
  calc_sunrise_sunset lat lon (today w)
  = inr (Some sunrise_utc, Some sunset_utc) ->
  fst (main w) = Return tt ->
  current_is_dark (current_scheme (snd (main w)))
  = target_dark sunrise_utc sunset_utc w.
Proof.
  intros Hc Hs. rewrite main_cases, Hc, Hs. intros Hr.
  apply (switch_returns sunrise_utc sunset_utc w Hr).
Qed.

Lemma main_returns_evening :
  fst (main evening_world) = Return tt.
Proof.
  assert (Hlat : -65.72 <= 35 <= 65.72) by lra.
  rewrite (main_run_switch evening_world 35 139 _ _ eq_refl
             (calc_nonpolar 35 139 midsummer Hlat)).
  rewrite switch_run.
  destruct (Bool.eqb _ _); reflexivity.
Qed.

Lemma main_establishes_target_witness :
  config_file evening_world = Some (Some (35, 139))
  /\ calc_sunrise_sunset 35 139 (today evening_world)
     = inr (Some (event_value 35 139 midsummer true),
            Some (event_value 35 139 midsummer false))
  /\ fst (main evening_world) = Return tt
  /\ current_is_dark (current_scheme (snd (main evening_world)))
     = target_dark (event_value 35 139 midsummer true)
         (event_value 35 139 midsummer false) evening_world.
Proof.
  assert (Hc : config_file evening_world = Some (Some (35, 139)))
    by reflexivity.
  assert (Hlat : -65.72 <= 35 <= 65.72) by lra.
  pose proof (calc_nonpolar 35 139 midsummer Hlat) as Hs.
  exact (conj Hc (conj Hs (conj main_returns_evening
    (main_establishes_target evening_world 35 139 _ _ Hc Hs
       main_returns_evening)))).
Defined.

(** X9.  Running [main] again right after a run that returned changes
    nothing, whichever way the first run went (polar warning, skip or
    switch): the second run returns too, issues no [gsettings set] and
    leaves the setting as it found it. *)
Theorem main_twice_sets_once (w : World) :
  fst (main w) = Return tt ->
  let w' := snd (main w) in
  fst (main w') = Return tt
  /\ sets_of (trace (snd (main w'))) = sets_of (trace w')
  /\ gsettings_stdout (snd (main w')) = gsettings_stdout w'.
Proof.
  rewrite (main_cases w).
  destruct (config_file w) as [[[lat lon]|]|] eqn:Hc; try discriminate.
  destruct (calc_sunrise_sunset lat lon (today w)) as [e|r] eqn:Hs;
    [discriminate|].
  assert (Hpolar : forall w0 : World,
    config_file w0 = Some (Some (lat, lon)) -> today w0 = today w ->
    (fst r = None \/ snd r = None) ->
    fst (main w0) = Return tt
    /\ sets_of (trace (snd (main w0))) = sets_of (trace w0)
    /\ gsettings_stdout (snd (main w0)) = gsettings_stdout w0).
  { intros w0 Hc0 Hd0 Hp.
    rewrite (main_run_polar w0 lat lon r Hc0) by (rewrite ?Hd0; assumption).
    simpl. rewrite sets_of_app. simpl. rewrite app_nil_r. repeat split. }
  destruct r as [[sunrise_utc|] [sunset_utc|]].
  - intros Hr.
    destruct (switch_returns sunrise_utc sunset_utc w Hr)
      as (Hcur & Hc' & Hd' & Ht' & _).
    set (w' := snd (switch sunrise_utc sunset_utc w)) in *.
    cbv zeta. rewrite (main_cases w'), Hc', Hc, Hd', Hs, switch_run.
    rewrite Ht', Hcur, Bool.eqb_reflx. simpl.
    rewrite sets_of_app. simpl. rewrite app_nil_r. repeat split.
  - intros _. apply Hpolar; auto.
  - intros _. apply Hpolar; auto.
  - intros _. apply Hpolar; auto.
Qed.

Lemma main_twice_sets_once_witness :
  fst (main evening_world) = Return tt
  /\ fst (main (snd (main evening_world))) = Return tt
  /\ sets_of (trace (snd (main (snd (main evening_world)))))
     = sets_of (trace (snd (main evening_world))).
Proof.
  pose proof (main_twice_sets_once evening_world main_returns_evening) as H.
  exact (conj main_returns_evening (conj (proj1 H) (proj1 (proj2 H)))).
Defined.

(** X10.  Whatever the world, one run of [main] runs [gsettings set] at most
    once, and only with ["prefer-dark"] or ["default"]: it never writes
    ["prefer-light"] or any other scheme. *)
Theorem main_sets_at_most_once (w : World) :
  exists l : list string,
    sets_of (trace (snd (main w))) = (sets_of (trace w) ++ l)%list
    /\ (l = [] \/ l = ["prefer-dark"%string] \/ l = ["default"%string]).
Proof.
  assert (Hnone : forall e : event,
    (forall s, e <> GsettingsSet s) ->
    sets_of (trace (log e w)) = (sets_of (trace w) ++ [])%list).
  { intros e He. unfold log. cbn [trace]. rewrite sets_of_app.
    destruct e; try reflexivity. exfalso. exact (He scheme eq_refl). }
  rewrite main_cases.
  destruct (config_file w) as [[[lat lon]|]|].
  - destruct (calc_sunrise_sunset lat lon (today w)) as [e|[[u|] [v|]]].
    + exists []. rewrite app_nil_r. auto.
    + rewrite switch_run.
      destruct (Bool.eqb _ _).
      * exists []. split; [|auto]. apply Hnone. discriminate.
      * exists [scheme_of (target_dark u v w)]. split.
        -- destruct (gsettings_set_ok w); simpl;
             rewrite !sets_of_app; simpl; rewrite ?app_nil_r; reflexivity.
        -- destruct (target_dark u v w); auto.
    + exists []. split; [|auto]. apply Hnone. discriminate.
    + exists []. split; [|auto]. apply Hnone. discriminate.
    + exists []. split; [|auto]. apply Hnone. discriminate.
  - exists []. rewrite app_nil_r. auto.
  - exists []. split; [|auto]. apply Hnone. discriminate.
Qed.

(** X11.  Without [location.conf] a run of [main] prints the error and exits
    with status 1: nothing is computed, [gsettings] is neither read for the
    decision nor run, and the setting is as before. *)
Theorem main_without_config (w : World) :
  config_file w = None ->
  main w = (SysExit 1, log PrintConfigMissing w)
  /\ sets_of (trace (snd (main w))) = sets_of (trace w)
  /\ gsettings_stdout (snd (main w)) = gsettings_stdout w.
Proof.
  intros Hc. rewrite main_cases, Hc. simpl.
  rewrite sets_of_app. simpl. rewrite app_nil_r. repeat split.
Qed.

Lemma main_without_config_witness :
  config_file unconfigured_world = None
  /\ main unconfigured_world
     = (SysExit 1, log PrintConfigMissing unconfigured_world).
Proof.
  assert (Hc : config_file unconfigured_world = None) by reflexivity.
  exact (conj Hc (proj1 (main_without_config unconfigured_world Hc))).
Defined.

(** X12.  When a change is needed and [gsettings set] fails, the run ends
    with [CalledProcessError] right after the command: the switch message
    is never printed and the setting reads back as before. *)
Theorem switch_set_failure (sunrise_utc sunset_utc : R) (w : World) :
  target_dark sunrise_utc sunset_utc w
  <> current_is_dark (current_scheme w) ->
  gsettings_set_ok w = false ->
  let scheme := scheme_of (target_dark sunrise_utc sunset_utc w) in
  fst (switch sunrise_utc sunset_utc w) = Raise Py.CalledProcessError
  /\ trace (snd (switch sunrise_utc sunset_utc w))
     = (trace w ++ [GsettingsSet scheme])%list
  /\ gsettings_stdout (snd (switch sunrise_utc sunset_utc w))
     = gsettings_stdout w.
Proof.
  intros Hne Hok scheme. rewrite switch_run.
  apply eqb_false_neq in Hne. rewrite Hne, Hok. simpl.
  rewrite Hok. repeat split.
Qed.

Lemma target_dark_at_night (w : World) :
  utcoffset_total_seconds w = 0 -> now_hour w = 23%Z -> now_minute w = 0%Z ->
  target_dark 6 18 w = true.
Proof.
  intros Hoff Hh Hm. unfold target_dark, local_minutes, now_minutes.
  rewrite (local_time_whole 6 w Hoff), (local_time_whole 18 w Hoff) by lia.
  rewrite Hh, Hm. reflexivity.
Qed.

Lemma switch_set_failure_witness :
  target_dark 6 18 broken_world
  <> current_is_dark (current_scheme broken_world)
  /\ gsettings_set_ok broken_world = false
  /\ fst (switch 6 18 broken_world) = Raise Py.CalledProcessError.
Proof.
  assert (Ht : target_dark 6 18 broken_world = true)
    by (apply target_dark_at_night; reflexivity).
  assert (Hne : target_dark 6 18 broken_world
                <> current_is_dark (current_scheme broken_world)).
  { rewrite Ht. vm_compute. discriminate. }
  assert (Hok : gsettings_set_ok broken_world = false) by reflexivity.
  exact (conj Hne (conj Hok
    (proj1 (switch_set_failure 6 18 broken_world Hne Hok)))).
Defined.

(** X13.  When the local minute of the sunset is earlier than that of the
    sunrise (longitude and time zone disagree), the interval of day is empty:
    the target is dark at every time of day, and a run that returns leaves
    ["prefer-dark"] set. *)
Theorem switch_dark_when_sunset_first (sunrise_utc sunset_utc : R) (w : World) :
  (local_minutes sunset_utc w < local_minutes sunrise_utc w)%Z ->
  target_dark sunrise_utc sunset_utc w = true
  /\ (fst (switch sunrise_utc sunset_utc w) = Return tt ->
      current_scheme (snd (switch sunrise_utc sunset_utc w))
      = "prefer-dark"%string).
Proof.
  intros Hlt.
  assert (Ht : target_dark sunrise_utc sunset_utc w = true).
  { unfold target_dark, should_be_dark, is_daytime.
    destruct (Z.leb_spec (local_minutes sunrise_utc w) (now_minutes w));
      destruct (Z.leb_spec (now_minutes w) (local_minutes sunset_utc w));
      try reflexivity. lia. }
  split; [exact Ht|]. intros Hr.
  destruct (switch_returns sunrise_utc sunset_utc w Hr) as (Hcur & _).
  rewrite Ht in Hcur. unfold current_is_dark in Hcur.
  apply String.eqb_eq in Hcur. exact Hcur.
Qed.

Lemma switch_dark_when_sunset_first_witness :
  (local_minutes 10 evening_world < local_minutes 20 evening_world)%Z
  /\ target_dark 20 10 evening_world = true
  /\ fst (switch 20 10 evening_world) = Return tt
  /\ current_scheme (snd (switch 20 10 evening_world)) = "prefer-dark"%string.
Proof.
  assert (Hlt : (local_minutes 10 evening_world
                 < local_minutes 20 evening_world)%Z).
  { unfold local_minutes.
    rewrite (local_time_whole 10 evening_world),
      (local_time_whole 20 evening_world) by (try reflexivity; lia).
    simpl. lia. }
  assert (Hr : fst (switch 20 10 evening_world) = Return tt).
  { rewrite switch_run. destruct (Bool.eqb _ _); reflexivity. }
  destruct (switch_dark_when_sunset_first 20 10 evening_world Hlt)
    as [Ht Hset].
  exact (conj Hlt (conj Ht (conj Hr (Hset Hr)))).
Defined.
